(** * The network controller of the hub-and-spoke topology

    A shallow embedding of [NetworkController] (constructor, [addHub],
    [addSpoke], [registerCidr], [registerAccount], [registerRegion]) as
    state-passing functions over a record of the controller's fields, and
    the properties its specification states about them.

    Conventions of the embedding:
    - a method [m(args): T] of the controller is a function
      [m args : M T], where [M T] takes the controller before the call
      and returns the outcome (a value or a thrown error) together with
      the controller after the call, so that what a failed call has
      already mutated stays visible;
    - [_hubs] is a plain JavaScript object: its own properties are a
      [gmap], and reads through [in] and through indexing also see the
      properties every object literal inherits;
    - [_registeredAccounts] and [_registeredRegions] are JavaScript
      [Set]s of strings, here [gset string]; the getters, which copy the
      set into an array, are [elements] (the order of the array plays no
      part in what follows);
    - the constructs created on the way (the address manager, the global
      network, the bucket, the hubs and the spokes) are created without
      error, and every scope belongs to a stack. *)

From Stdlib Require Import ZArith String Ascii List.
From stdpp Require Import gmap strings list fin_maps.

Local Open Scope string_scope.
Local Open Scope Z_scope.

(** ** JavaScript helpers *)

(** [a ?? b] on a value that is either present or [undefined]. *)
Definition nullish {A : Type} (o : option A) (d : A) : A :=
  match o with
  | Some x => x
  | None => d
  end.

Notation "o ?? d" := (nullish o d) (at level 45, left associativity).

(** [Array.prototype.includes] on an array of strings. *)
Definition includes (l : list string) (x : string) : bool :=
  bool_decide (x ∈ l).

(** [String.prototype.toLowerCase], on the ASCII letters. *)
Definition lower_ascii (a : ascii) : ascii :=
  let n := nat_of_ascii a in
  if (Nat.leb 65 n && Nat.leb n 90)%bool then ascii_of_nat (n + 32) else a.

Fixpoint toLowerCase (s : string) : string :=
  match s with
  | EmptyString => EmptyString
  | String a r => String (lower_ascii a) (toLowerCase r)
  end.

(** The property names an object literal inherits from [Object.prototype]. *)
Definition Object_prototype_keys : list string :=
  [ "constructor"; "__defineGetter__"; "__defineSetter__"; "hasOwnProperty";
    "__lookupGetter__"; "__lookupSetter__"; "isPrototypeOf";
    "propertyIsEnumerable"; "toString"; "valueOf"; "__proto__";
    "toLocaleString" ].

Definition inherited (k : string) : bool :=
  bool_decide (k ∈ Object_prototype_keys).

(** What indexing a plain object with own values of type [V] yields. *)
Inductive JsValue (V : Type) : Type :=
| JsUndefined
| JsOwn (v : V)
| JsInherited (name : string).

Arguments JsUndefined {V}.
Arguments JsOwn {V} v.
Arguments JsInherited {V} name.

(** [k in o] *)
Definition js_in {V : Type} (k : string) (o : gmap string V) : bool :=
  bool_decide (is_Some (o !! k)) || inherited k.

(** [o[k]] *)
Definition js_get {V : Type} (k : string) (o : gmap string V) : JsValue V :=
  match o !! k with
  | Some v => JsOwn v
  | None => if inherited k then JsInherited k else JsUndefined
  end.

(** [o[k] = v], for a key [k] that [o] does not inherit: the assignment
    defines an own property.  [addHub], the only writer, assigns only
    after [k in o] was false. *)
Definition js_set {V : Type} (k : string) (v : V) (o : gmap string V) : gmap string V :=
  <[k := v]> o.

(** [x == undefined] *)
Definition is_undefined {V : Type} (x : JsValue V) : bool :=
  match x with
  | JsUndefined => true
  | _ => false
  end.

(** ** Errors

    Every failure of the controller is a thrown [Error] that differs from
    the others by its message only; the constructors name them as the
    specification does and [message] gives the text.  [TypeError] is the
    one the runtime throws when a value that is not a function is called. *)

Inductive Site : Type := AtController | AtHub | AtSpoke.

Inductive IdKind : Type := AccountId | RegionId.

Inductive Error : Type :=
| UnboundEnvironmentError (site : Site)
| DuplicateHubError (region : string)
| MissingHubError (region : string)
| SymbolicIdentifierError (kind : IdKind)
| TypeError (what : string).

Definition message (e : Error) : string :=
  match e with
  | UnboundEnvironmentError AtController =>
      "A network controller can only be deployed using a stack with a fully qualified environment."
  | UnboundEnvironmentError AtHub =>
      "To add a hub network please provide a scope that belongs to a stack with a fully qualified environment."
  | UnboundEnvironmentError AtSpoke =>
      "To add a spoke network please provide a scope that belongs to a stack with a fully qualified environment."
  | DuplicateHubError region =>
      "A hub network already exists for the region '" +:+ region +:+ "'."
  | MissingHubError region =>
      "A hub network must be registered for the '" +:+ region
        +:+ "' before a spoke can be added for that region."
  | SymbolicIdentifierError AccountId =>
      "Accounts registered with a network controller cannot contain tokens"
  | SymbolicIdentifierError RegionId =>
      "Regions registered with a network controller cannot contain tokens"
  | TypeError what => what +:+ " is not a function"
  end.

Inductive Result (A : Type) : Type :=
| Ok (a : A)
| Throw (e : Error).

Arguments Ok {A} a.
Arguments Throw {A} e.

(** ** Construction scopes

    What the controller reads of a scope: the account and the region of
    the stack the scope belongs to ([Stack.of(scope).account],
    [Stack.of(scope).region]), either of which may be a token, and the
    address of the scope's node ([scope.node.addr]). *)

Record Scope : Type := {
  scope_account : string;
  scope_region : string;
  scope_addr : string
}.

(** ** Options *)

Record AddNetworkOptions : Type := {
  availabilityZones : option (list string);
  maxAzs : option Z;
  netmask : option Z
}.

(** [AddHubOptions extends AddNetworkOptions]; a transit gateway route
    table defined elsewhere is referred to by its name. *)
Record AddHubOptions : Type := {
  network_options :> AddNetworkOptions;
  defaultTransitGatewayRouteTable : option string
}.

(** The default [{}] of the [options] parameters. *)
Definition no_network_options : AddNetworkOptions :=
  {| availabilityZones := None; maxAzs := None; netmask := None |}.

Definition no_hub_options : AddHubOptions :=
  {| network_options := no_network_options;
     defaultTransitGatewayRouteTable := None |}.

(** ** The address allocator *)

(** Modelled from the spec: [IpAddressManager] is defined in another
    module of the repository.  The specification gives its contract:
    [allocate(scope, key, {netmask})] returns a provider of a lazily
    resolved address range and [registerManual(scope, key, cidr)] returns
    nothing.  The manager is its ledger of the requests received, in
    order, and a provider is the request it answers. *)
Record VpcRequest : Type := {
  req_scope : Scope;
  req_id : string;
  req_netmask : Z
}.

Inductive LedgerEntry : Type :=
| Allocation (r : VpcRequest)
| ManualCidr (scope : Scope) (id : string) (cidr : string).

Record IpAddressManager : Type := {
  am_id : string;
  ledger : list LedgerEntry
}.

Definition getVpcConfiguration (scope : Scope) (id : string) (mask : Z)
    (am : IpAddressManager) : VpcRequest * IpAddressManager :=
  let r := {| req_scope := scope; req_id := id; req_netmask := mask |} in
  (r, {| am_id := am_id am; ledger := ledger am ++ [Allocation r] |}).

Definition IpAddressManager_registerCidr (scope : Scope) (id cidr : string)
    (am : IpAddressManager) : IpAddressManager :=
  {| am_id := am_id am; ledger := ledger am ++ [ManualCidr scope id cidr] |}.

Record GlobalNetwork : Type := { gn_id : string }.

(** ** What the controller takes from outside

    [Token.isUnresolved] and [Names.uniqueId] belong to the construct
    library, and [FlowLogFormat] is declared in the [ec2] module of the
    repository; the controller only names its member [V5].  They are the
    parameters of the development. *)

Class Externals : Type := {
  (** whether a string stands for a value only known at deployment *)
  isUnresolved : string → bool;
  FlowLogFormat : Type;
  V5 : FlowLogFormat;
  (** the unique identifier of the construct created under a scope with
      an identifier *)
  Names_uniqueId : Scope → string → string
}.

(** ** The controller *)

Section Controller.

Context {ext : Externals}.

(** The log sink: the bucket the caller supplied, referred to by its
    name, or the [FlowLogsBucket] the controller creates. *)
Inductive Bucket : Type :=
| SuppliedBucket (name : string)
| FlowLogsBucket (id : string) (bucketName : string) (format : FlowLogFormat).

Inductive FlowLogDestination : Type :=
| toS3 (bucket : Bucket).

Record FlowLogOptions : Type := {
  destination : FlowLogDestination;
  logFormatDefinition : FlowLogFormat
}.

(** An object literal of flow logs by name. *)
Definition FlowLogs : Type := list (string * FlowLogOptions).

Record FourTierNetworkSpokeProps : Type := {
  sp_availabilityZones : option (list string);
  sp_cidr : VpcRequest;
  sp_flowLogs : FlowLogs;
  sp_maxAzs : option Z
}.

Record FourTierNetworkHubProps : Type := {
  hp_availabilityZones : option (list string);
  hp_cidr : VpcRequest;
  hp_defaultTransitGatewayRouteTable : option string;
  hp_flowLogs : FlowLogs;
  hp_maxAzs : option Z
}.

(** A spoke refers back to its hub by the hub's scope and identifier. *)
Record FourTierNetworkSpoke : Type := {
  spoke_scope : Scope;
  spoke_id : string;
  spoke_props : FourTierNetworkSpokeProps;
  spoke_hub : Scope * string
}.

Record FourTierNetworkHub : Type := {
  hub_scope : Scope;
  hub_id : string;
  hub_props : FourTierNetworkHubProps;
  hub_spokes : list FourTierNetworkSpoke
}.

(** Modelled from the spec: the class [FourTierNetworkHub] is defined in
    another module of the repository.  By the specification a hub has a
    region, an address range, a log routing rule and the collection of
    its spokes.  [new FourTierNetworkHub(scope, id, props)] is the hub of
    that scope, identifier and properties, with no spoke yet.  The
    creation is taken to succeed; what the constructor and the constructs
    library may reject (an identifier already taken in the scope, for
    one) is not represented, so that the statements about [addHub] and
    [addSpoke] below are about calls that return and about the errors of
    the controller's own tests, not about every way in which a call can
    fail. *)
Definition FourTierNetworkHub_new (scope : Scope) (id : string)
    (props : FourTierNetworkHubProps) : FourTierNetworkHub :=
  {| hub_scope := scope; hub_id := id; hub_props := props; hub_spokes := [] |}.

(** Modelled from the spec: the classes of the hub and of the spoke are
    defined in another module of the repository.  By the specification
    the environment resolver yields, for any construction scope, the
    owning region; a hub and a spoke are created under a scope and live
    in the region of its stack. *)
Definition hub_region (h : FourTierNetworkHub) : string :=
  scope_region (hub_scope h).

Definition spoke_region (s : FourTierNetworkSpoke) : string :=
  scope_region (spoke_scope s).

(** What identifies a hub while its spokes are added. *)
Definition hub_ref (h : FourTierNetworkHub) : Scope * string :=
  (hub_scope h, hub_id h).

(** Modelled from the spec: [FourTierNetworkHub.addSpoke] is defined in
    another module of the repository.  By the specification a hub owns
    the collection of its attached spokes, the controller delegates the
    creation of a spoke to the owning hub, passing it the constraints and
    the log routing rule, and the spoke refers back to its hub.  The call
    returns the new spoke and the hub with the spoke attached. *)
Definition FourTierNetworkHub_addSpoke (scope : Scope) (id : string)
    (props : FourTierNetworkSpokeProps) (hub : FourTierNetworkHub)
    : FourTierNetworkSpoke * FourTierNetworkHub :=
  let spoke :=
    {| spoke_scope := scope; spoke_id := id; spoke_props := props;
       spoke_hub := hub_ref hub |} in
  (spoke,
   {| hub_scope := hub_scope hub; hub_id := hub_id hub;
      hub_props := hub_props hub; hub_spokes := hub_spokes hub ++ [spoke] |}).

Record NetworkControllerProps : Type := {
  props_defaultNetmask : option Z;
  props_flowLogBucket : option string;
  props_flowLogFormat : option FlowLogFormat
}.

(** The fields of a controller.  [this.stack] is the stack of the scope
    the controller was created in, so [this.stack.account] and
    [this.stack.region] are read off [ctrl_scope]. *)
Record NetworkController : Type := {
  ctrl_scope : Scope;
  ctrl_id : string;
  _hubs : gmap string FourTierNetworkHub;
  _registeredAccounts : gset string;
  _registeredRegions : gset string;
  defaultNetmask : Z;
  flowLogFormat : FlowLogFormat;
  addressManager : IpAddressManager;
  flowLogBucket : Bucket;
  globalNetwork : GlobalNetwork
}.

Definition this_account (this : NetworkController) : string :=
  scope_account (ctrl_scope this).

Definition this_region (this : NetworkController) : string :=
  scope_region (ctrl_scope this).

(** The getters [registeredAccounts] and [registeredRegions]. *)
Definition registeredAccounts (this : NetworkController) : list string :=
  elements (_registeredAccounts this).

Definition registeredRegions (this : NetworkController) : list string :=
  elements (_registeredRegions this).

(** Updates of the fields that the methods mutate. *)
Definition with_hubs (f : gmap string FourTierNetworkHub -> gmap string FourTierNetworkHub)
    (this : NetworkController) : NetworkController :=
  {| ctrl_scope := ctrl_scope this; ctrl_id := ctrl_id this;
     _hubs := f (_hubs this);
     _registeredAccounts := _registeredAccounts this;
     _registeredRegions := _registeredRegions this;
     defaultNetmask := defaultNetmask this;
     flowLogFormat := flowLogFormat this;
     addressManager := addressManager this;
     flowLogBucket := flowLogBucket this;
     globalNetwork := globalNetwork this |}.

Definition with_registeredAccounts (f : gset string -> gset string)
    (this : NetworkController) : NetworkController :=
  {| ctrl_scope := ctrl_scope this; ctrl_id := ctrl_id this;
     _hubs := _hubs this;
     _registeredAccounts := f (_registeredAccounts this);
     _registeredRegions := _registeredRegions this;
     defaultNetmask := defaultNetmask this;
     flowLogFormat := flowLogFormat this;
     addressManager := addressManager this;
     flowLogBucket := flowLogBucket this;
     globalNetwork := globalNetwork this |}.

Definition with_registeredRegions (f : gset string -> gset string)
    (this : NetworkController) : NetworkController :=
  {| ctrl_scope := ctrl_scope this; ctrl_id := ctrl_id this;
     _hubs := _hubs this;
     _registeredAccounts := _registeredAccounts this;
     _registeredRegions := f (_registeredRegions this);
     defaultNetmask := defaultNetmask this;
     flowLogFormat := flowLogFormat this;
     addressManager := addressManager this;
     flowLogBucket := flowLogBucket this;
     globalNetwork := globalNetwork this |}.

Definition with_addressManager (am : IpAddressManager)
    (this : NetworkController) : NetworkController :=
  {| ctrl_scope := ctrl_scope this; ctrl_id := ctrl_id this;
     _hubs := _hubs this;
     _registeredAccounts := _registeredAccounts this;
     _registeredRegions := _registeredRegions this;
     defaultNetmask := defaultNetmask this;
     flowLogFormat := flowLogFormat this;
     addressManager := am;
     flowLogBucket := flowLogBucket this;
     globalNetwork := globalNetwork this |}.

(** *** Methods as state-passing computations *)

Definition M (A : Type) : Type := NetworkController -> Result A * NetworkController.

Definition ret {A : Type} (a : A) : M A := fun this => (Ok a, this).

Definition throw {A : Type} (e : Error) : M A := fun this => (Throw e, this).

Definition bind {A B : Type} (m : M A) (k : A -> M B) : M B :=
  fun this =>
    match m this with
    | (Ok a, this') => k a this'
    | (Throw e, this') => (Throw e, this')
    end.

Notation "'let*' x ':=' m 'in' k" := (bind m (fun x => k))
  (at level 10, x name, m at level 100, k at level 200).
Notation "'do' m 'then' k" := (bind m (fun _ => k))
  (at level 10, m at level 100, k at level 200).

(** Reading a field of [this]. *)
Definition read {A : Type} (f : NetworkController -> A) : M A :=
  fun this => (Ok (f this), this).

(** Mutating [this]. *)
Definition modify (f : NetworkController -> NetworkController) : M unit :=
  fun this => (Ok tt, f this).

(** [new NetworkController(scope, id, props)] *)
Definition NetworkController_new (scope : Scope) (id : string)
    (props : NetworkControllerProps) : Result NetworkController :=
  if isUnresolved (scope_account scope) || isUnresolved (scope_region scope) then
    Throw (UnboundEnvironmentError AtController)
  else
    let format := props_flowLogFormat props ?? V5 in
    Ok {| ctrl_scope := scope; ctrl_id := id;
          _hubs := ∅;
          _registeredAccounts := ∅;
          _registeredRegions := ∅;
          defaultNetmask := props_defaultNetmask props ?? 16;
          flowLogFormat := format;
          addressManager := {| am_id := "address-manager"; ledger := [] |};
          globalNetwork := {| gn_id := "global-network" |};
          flowLogBucket :=
            match props_flowLogBucket props with
            | Some b => SuppliedBucket b
            | None =>
                FlowLogsBucket "flow-log-bucket"
                  (toLowerCase (Names_uniqueId scope id)) format
            end |}.

Definition registerAccount (account : string) : M unit :=
  fun this =>
    if bool_decide (account = this_account this) then ret tt this
    else if includes (registeredAccounts this) account then ret tt this
    else if isUnresolved account then throw (SymbolicIdentifierError AccountId) this
    else modify (with_registeredAccounts (fun s => s ∪ {[account]})) this.

Definition registerRegion (region : string) : M unit :=
  fun this =>
    if bool_decide (region = this_region this) then ret tt this
    else if includes (registeredRegions this) region then ret tt this
    else if isUnresolved region then throw (SymbolicIdentifierError RegionId) this
    else modify (with_registeredRegions (fun s => s ∪ {[region]})) this.

(** [this.addressManager.getVpcConfiguration(scope, id, {netmask})] *)
Definition allocate (scope : Scope) (id : string) (mask : Z) : M VpcRequest :=
  fun this =>
    let (provider, am) := getVpcConfiguration scope id mask (addressManager this) in
    (Ok provider, with_addressManager am this).

(** The rule under the name ['flow-log-default'] that both [addHub] and
    [addSpoke] build. *)
Definition default_flowLogs (this : NetworkController) : FlowLogs :=
  [("flow-log-default",
    {| destination := toS3 (flowLogBucket this);
       logFormatDefinition := flowLogFormat this |})].

Definition addHub (scope : Scope) (id : string) (options : AddHubOptions)
    : M FourTierNetworkHub :=
  let scopeAccount := scope_account scope in
  let scopeRegion := scope_region scope in
  fun this =>
    if isUnresolved scopeAccount || isUnresolved scopeRegion then
      throw (UnboundEnvironmentError AtHub) this
    else if js_in scopeRegion (_hubs this) then
      throw (DuplicateHubError scopeRegion) this
    else
      (do registerAccount scopeAccount then
       do registerRegion scopeRegion then
       let* dflt := read defaultNetmask in
       let mask := netmask options ?? dflt in
       let* provider := allocate scope id mask in
       let* flowLogs := read default_flowLogs in
       let hub := FourTierNetworkHub_new scope id
         {| hp_availabilityZones := availabilityZones options;
            hp_cidr := provider;
            hp_defaultTransitGatewayRouteTable :=
              defaultTransitGatewayRouteTable options;
            hp_flowLogs := flowLogs;
            hp_maxAzs := maxAzs options |} in
       do modify (with_hubs (js_set scopeRegion hub)) then
       ret hub) this.

(** [hub.addSpoke(scope, id, props)] on what [this._hubs[scopeRegion]]
    gave: on a hub, the hub attaches the spoke, and it is the hub held
    under [scopeRegion] that changes; on an inherited member of the
    object, which has no [addSpoke], the call throws. *)
Definition call_addSpoke (hub : JsValue FourTierNetworkHub) (scopeRegion : string)
    (scope : Scope) (id : string) (props : FourTierNetworkSpokeProps)
    : M FourTierNetworkSpoke :=
  match hub with
  | JsOwn h =>
      let (spoke, h') := FourTierNetworkHub_addSpoke scope id props h in
      do modify (with_hubs (<[scopeRegion := h']>)) then
      ret spoke
  | JsInherited _ => throw (TypeError "hub.addSpoke")
  | JsUndefined => throw (TypeError "hub.addSpoke")
  end.

Definition addSpoke (scope : Scope) (id : string) (options : AddNetworkOptions)
    : M FourTierNetworkSpoke :=
  let scopeAccount := scope_account scope in
  let scopeRegion := scope_region scope in
  fun this =>
    let hub := js_get scopeRegion (_hubs this) in
    if isUnresolved scopeAccount || isUnresolved scopeRegion then
      throw (UnboundEnvironmentError AtSpoke) this
    else if is_undefined hub then
      throw (MissingHubError scopeRegion) this
    else
      (do registerAccount scopeAccount then
       do registerRegion scopeRegion then
       let* dflt := read defaultNetmask in
       let mask := netmask options ?? dflt in
       let* provider := allocate scope (id +:+ "-" +:+ scope_addr scope) mask in
       let* flowLogs := read default_flowLogs in
       call_addSpoke hub scopeRegion scope id
         {| sp_availabilityZones := availabilityZones options;
            sp_cidr := provider;
            sp_flowLogs := flowLogs;
            sp_maxAzs := maxAzs options |}) this.

Definition registerCidr (scope : Scope) (id cidr : string) : M unit :=
  modify (fun this =>
    with_addressManager
      (IpAddressManager_registerCidr scope id cidr (addressManager this)) this).

(** *** Sequences of calls *)

Inductive Op : Type :=
| OpAddHub (scope : Scope) (id : string) (options : AddHubOptions)
| OpAddSpoke (scope : Scope) (id : string) (options : AddNetworkOptions)
| OpRegisterCidr (scope : Scope) (id cidr : string)
| OpRegisterAccount (account : string)
| OpRegisterRegion (region : string).

(** The controller after a call, whether the call returned or threw. *)
Definition step (op : Op) (this : NetworkController) : NetworkController :=
  match op with
  | OpAddHub scope id options => snd (addHub scope id options this)
  | OpAddSpoke scope id options => snd (addSpoke scope id options this)
  | OpRegisterCidr scope id cidr => snd (registerCidr scope id cidr this)
  | OpRegisterAccount account => snd (registerAccount account this)
  | OpRegisterRegion region => snd (registerRegion region this)
  end.

Definition run (ops : list Op) (this : NetworkController) : NetworkController :=
  fold_left (fun c op => step op c) ops this.

(** *** Notions used to state the properties *)

(** The controller once the account and the region of a scope went
    through [registerAccount] and [registerRegion]. *)
Definition registered (scope : Scope) (this : NetworkController) : NetworkController :=
  snd (registerRegion (scope_region scope)
         (snd (registerAccount (scope_account scope) this))).

(** The controller once its address manager answered a request. *)
Definition allocated (r : VpcRequest) (this : NetworkController) : NetworkController :=
  with_addressManager
    (snd (getVpcConfiguration (req_scope r) (req_id r) (req_netmask r)
            (addressManager this))) this.

Definition hub_request (scope : Scope) (id : string) (options : AddHubOptions)
    (this : NetworkController) : VpcRequest :=
  {| req_scope := scope; req_id := id;
     req_netmask := netmask options ?? defaultNetmask this |}.

Definition spoke_request (scope : Scope) (id : string) (options : AddNetworkOptions)
    (this : NetworkController) : VpcRequest :=
  {| req_scope := scope; req_id := id +:+ "-" +:+ scope_addr scope;
     req_netmask := netmask options ?? defaultNetmask this |}.

(** The hub that [addHub] builds. *)
Definition new_hub (scope : Scope) (id : string) (options : AddHubOptions)
    (provider : VpcRequest) (this : NetworkController) : FourTierNetworkHub :=
  FourTierNetworkHub_new scope id
    {| hp_availabilityZones := availabilityZones options;
       hp_cidr := provider;
       hp_defaultTransitGatewayRouteTable := defaultTransitGatewayRouteTable options;
       hp_flowLogs := default_flowLogs this;
       hp_maxAzs := maxAzs options |}.

(** The properties [addSpoke] hands to the hub. *)
Definition new_spoke_props (options : AddNetworkOptions)
    (provider : VpcRequest) (this : NetworkController) : FourTierNetworkSpokeProps :=
  {| sp_availabilityZones := availabilityZones options;
     sp_cidr := provider;
     sp_flowLogs := default_flowLogs this;
     sp_maxAzs := maxAzs options |}.

(** What a call leaves alone: the identity of the controller and the
    fields declared [readonly] that hold plain values or collaborators
    other than the address manager. *)
Definition same_config (c c' : NetworkController) : Prop :=
  ctrl_scope c' = ctrl_scope c ∧ ctrl_id c' = ctrl_id c ∧
  defaultNetmask c' = defaultNetmask c ∧ flowLogFormat c' = flowLogFormat c ∧
  flowLogBucket c' = flowLogBucket c ∧ globalNetwork c' = globalNetwork c.

(** The tracker holds neither the controller's own account or region nor
    a token. *)
Definition tracker_ok (c : NetworkController) : Prop :=
  (this_account c ∉ _registeredAccounts c) ∧
  (this_region c ∉ _registeredRegions c) ∧
  (∀ a, a ∈ _registeredAccounts c → isUnresolved a = false) ∧
  (∀ r, r ∈ _registeredRegions c → isUnresolved r = false).

(** A hub is held under the region of its own scope. *)
Definition hubs_keyed (c : NetworkController) : Prop :=
  ∀ R h, _hubs c !! R = Some h → hub_region h = R.

(** The hubs of [c] are still there in [c'], each under its region, with
    the identity and the properties it was created with. *)
Definition hubs_kept (c c' : NetworkController) : Prop :=
  ∀ R h, _hubs c !! R = Some h →
    ∃ h', _hubs c' !! R = Some h' ∧ hub_ref h' = hub_ref h ∧
          hub_props h' = hub_props h.

End Controller.

(** ** Further notions about the controller *)

Section Notions.

Context {ext : Externals}.

(** The account and the region of a scope are accounted for: each is the
    controller's own or is held by the tracker. *)
Definition tracked (c : NetworkController) (scope : Scope) : Prop :=
  (scope_account scope = this_account c ∨
   scope_account scope ∈ registeredAccounts c) ∧
  (scope_region scope = this_region c ∨
   scope_region scope ∈ registeredRegions c).

(** What holds of a hub held under the region [R]. *)
Definition hub_ok (c : NetworkController) (R : string) (h : FourTierNetworkHub) : Prop :=
  scope_region (hub_scope h) = R ∧
  isUnresolved (scope_account (hub_scope h)) = false ∧
  isUnresolved R = false ∧
  inherited R = false ∧
  hp_flowLogs (hub_props h) = default_flowLogs c ∧
  tracked c (hub_scope h).

(** What holds of a spoke attached to the hub [h] held under [R]. *)
Definition spoke_ok (c : NetworkController) (R : string) (h : FourTierNetworkHub)
    (s : FourTierNetworkSpoke) : Prop :=
  scope_region (spoke_scope s) = R ∧
  isUnresolved (scope_account (spoke_scope s)) = false ∧
  spoke_hub s = hub_ref h ∧
  sp_flowLogs (spoke_props s) = default_flowLogs c ∧
  tracked c (spoke_scope s).

Definition topology_ok (c : NetworkController) : Prop :=
  ∀ R h, _hubs c !! R = Some h →
    hub_ok c R h ∧ ∀ s, s ∈ hub_spokes h → spoke_ok c R h s.

(** The manual registrations that a ledger holds, in order, and those
    that a sequence of calls asks for. *)
Definition manual_entries (l : list LedgerEntry) : list (Scope * string * string) :=
  omap (fun e =>
          match e with
          | ManualCidr scope id cidr => Some (scope, id, cidr)
          | Allocation _ => None
          end) l.

Definition cidr_ops (ops : list Op) : list (Scope * string * string) :=
  omap (fun op =>
          match op with
          | OpRegisterCidr scope id cidr => Some (scope, id, cidr)
          | _ => None
          end) ops.

End Notions.

(** An upper case ASCII letter. *)
Definition is_upper (a : ascii) : bool :=
  let n := nat_of_ascii a in (Nat.leb 65 n && Nat.leb n 90)%bool.

Fixpoint string_forall (p : ascii → bool) (s : string) : bool :=
  match s with
  | EmptyString => true
  | String a r => p a && string_forall p r
  end.

(** ** GuardDuty detector features

    The static factories of the class [Feature].  The data sources that
    three of them name come from the class [DataSource] of the module
    [data-source] of the repository and are parameters here. *)

Class DataSources : Type := {
  IDataSource : Type;
  DataSource_malwareProtection : IDataSource;
  DataSource_kubernetes : IDataSource;
  DataSource_s3Logs : IDataSource
}.

Record IFeatureSetting : Type := {
  setting_enabled : bool;
  setting_name : string
}.

Record FeatureOptions : Type := {
  opt_enabled : option bool
}.

(** [EksRuntimeMonitoringOptions extends FeatureOptions] *)
Record EksRuntimeMonitoringOptions : Type := {
  feature_options :> FeatureOptions;
  addonManagement : option bool
}.

(** The default [{}] of the [options] parameters. *)
Definition no_feature_options : FeatureOptions := {| opt_enabled := None |}.

Definition no_eks_options : EksRuntimeMonitoringOptions :=
  {| feature_options := no_feature_options; addonManagement := None |}.

Section Features.

Context {ds : DataSources}.

Record IFeature : Type := {
  feature_dataSource : option IDataSource;
  feature_enabled : bool;
  feature_name : string;
  feature_settings : option (list IFeatureSetting)
}.

Definition ebsMalwareProtection (options : FeatureOptions) : IFeature :=
  {| feature_dataSource := Some DataSource_malwareProtection;
     feature_enabled := opt_enabled options ?? true;
     feature_name := "EBS_MALWARE_PROTECTION";
     feature_settings := None |}.

Definition eksAuditLogs (options : FeatureOptions) : IFeature :=
  {| feature_dataSource := Some DataSource_kubernetes;
     feature_enabled := opt_enabled options ?? true;
     feature_name := "EKS_AUDIT_LOGS";
     feature_settings := None |}.

Definition eksRuntimeMonitoring (options : EksRuntimeMonitoringOptions) : IFeature :=
  {| feature_dataSource := None;
     feature_enabled := opt_enabled options ?? true;
     feature_name := "EKS_RUNTIME_MONITORING";
     feature_settings :=
       Some [ {| setting_enabled := addonManagement options ?? true;
                 setting_name := "EKS_ADDON_MANAGEMENT" |} ] |}.

Definition lambdaNetworkLogs (options : FeatureOptions) : IFeature :=
  {| feature_dataSource := None;
     feature_enabled := opt_enabled options ?? true;
     feature_name := "LAMBDA_NETWORK_LOGS";
     feature_settings := None |}.

Definition rdsLoginEvents (options : FeatureOptions) : IFeature :=
  {| feature_dataSource := None;
     feature_enabled := opt_enabled options ?? true;
     feature_name := "RDS_LOGIN_EVENTS";
     feature_settings := None |}.

Definition s3DataEvents (options : FeatureOptions) : IFeature :=
  {| feature_dataSource := Some DataSource_s3Logs;
     feature_enabled := opt_enabled options ?? true;
     feature_name := "S3_DATA_EVENTS";
     feature_settings := None |}.

(** The six factories, each on an options object that may also carry
    [addonManagement], which the five others do not read. *)
Definition Feature_factories : list (EksRuntimeMonitoringOptions → IFeature) :=
  [ (fun o : EksRuntimeMonitoringOptions => ebsMalwareProtection o);
    (fun o : EksRuntimeMonitoringOptions => eksAuditLogs o);
    eksRuntimeMonitoring;
    (fun o : EksRuntimeMonitoringOptions => lambdaNetworkLogs o);
    (fun o : EksRuntimeMonitoringOptions => rdsLoginEvents o);
    (fun o : EksRuntimeMonitoringOptions => s3DataEvents o) ].

End Features.

(** ** A concrete topology

    An instance of what the controller takes from outside, to run the
    methods on: tokens are the strings that carry the marker of the
    construct library's token encoding, the log formats are four
    versions, and the unique identifier of a construct is its identifier
    followed by the address of its scope. *)

Fixpoint has_infix (m s : string) : bool :=
  String.prefix m s ||
  match s with
  | EmptyString => false
  | String _ r => has_infix m r
  end.

Definition is_token (s : string) : bool := has_infix "${Token[" s.

Inductive LogFormat : Type := LogV2 | LogV3 | LogV4 | LogV5.

Definition ex_uniqueId (scope : Scope) (id : string) : string :=
  id +:+ scope_addr scope.

Definition ex_externals : Externals :=
  {| isUnresolved := is_token; FlowLogFormat := LogFormat; V5 := LogV5;
     Names_uniqueId := ex_uniqueId |}.

Section Topology.

#[local] Existing Instance ex_externals.

(** The stack of the controller. *)
Definition ex_home : Scope :=
  {| scope_account := "000000000000"; scope_region := "us-west-2";
     scope_addr := "c8aa" |}.

(** A stack of another account in another region. *)
Definition ex_east : Scope :=
  {| scope_account := "111111111111"; scope_region := "us-east-1";
     scope_addr := "c8bb" |}.

(** A stack whose region is given and whose account is left open. *)
Definition ex_east_open : Scope :=
  {| scope_account := "${Token[AWS.AccountId.4]}"; scope_region := "us-east-1";
     scope_addr := "c8cc" |}.

Definition ex_eu : Scope :=
  {| scope_account := "222222222222"; scope_region := "eu-west-1";
     scope_addr := "c8dd" |}.

Definition ex_eu_open : Scope :=
  {| scope_account := "${Token[AWS.AccountId.4]}"; scope_region := "eu-west-1";
     scope_addr := "c8ee" |}.

(** A stack whose region is spelled like a member of every object. *)
Definition ex_toString : Scope :=
  {| scope_account := "111111111111"; scope_region := "toString";
     scope_addr := "c8ff" |}.

Definition ex_props : NetworkControllerProps :=
  {| props_defaultNetmask := None; props_flowLogBucket := None;
     props_flowLogFormat := None |}.

(** [new NetworkController(ex_home, 'Controller')] *)
Definition ex_ctl : NetworkController :=
  {| ctrl_scope := ex_home; ctrl_id := "Controller";
     _hubs := ∅; _registeredAccounts := ∅; _registeredRegions := ∅;
     defaultNetmask := 16; flowLogFormat := LogV5;
     addressManager := {| am_id := "address-manager"; ledger := [] |};
     flowLogBucket := FlowLogsBucket "flow-log-bucket" "controllerc8aa" LogV5;
     globalNetwork := {| gn_id := "global-network" |} |}.

Definition ex_rule : FlowLogs :=
  [("flow-log-default",
    {| destination := toS3 (flowLogBucket ex_ctl);
       logFormatDefinition := LogV5 |})].

(** The hub of [ex_ctl.addHub(ex_east, 'hub1')] and the controller after
    the call. *)
Definition ex_hub1 : FourTierNetworkHub :=
  {| hub_scope := ex_east; hub_id := "hub1";
     hub_props :=
       {| hp_availabilityZones := None;
          hp_cidr := {| req_scope := ex_east; req_id := "hub1"; req_netmask := 16 |};
          hp_defaultTransitGatewayRouteTable := None;
          hp_flowLogs := ex_rule;
          hp_maxAzs := None |};
     hub_spokes := [] |}.

Definition ex_ctl1 : NetworkController :=
  snd (addHub ex_east "hub1" no_hub_options ex_ctl).

(** The spoke of [ex_ctl1.addSpoke(ex_east, 'spoke1')]. *)
Definition ex_spoke1 : FourTierNetworkSpoke :=
  {| spoke_scope := ex_east; spoke_id := "spoke1";
     spoke_props :=
       {| sp_availabilityZones := None;
          sp_cidr := {| req_scope := ex_east; req_id := "spoke1-c8bb"; req_netmask := 16 |};
          sp_flowLogs := ex_rule;
          sp_maxAzs := None |};
     spoke_hub := (ex_east, "hub1") |}.

Definition ex_ctl2 : NetworkController :=
  snd (addSpoke ex_east "spoke1" no_network_options ex_ctl1).

(** The constructor on a stack whose environment is left open. *)
Definition ex_open : Scope :=
  {| scope_account := "${Token[AWS.AccountId.4]}";
     scope_region := "${Token[AWS.Region.8]}"; scope_addr := "c800" |}.

(** [ex_ctl.addHub(ex_eu, 'hub2', {netmask: 24})] *)
Definition ex_options24 : AddHubOptions :=
  {| network_options :=
       {| availabilityZones := None; maxAzs := Some 3; netmask := Some 24 |};
     defaultTransitGatewayRouteTable := None |}.

Definition ex_hub2 : FourTierNetworkHub :=
  {| hub_scope := ex_eu; hub_id := "hub2";
     hub_props :=
       {| hp_availabilityZones := None;
          hp_cidr := {| req_scope := ex_eu; req_id := "hub2"; req_netmask := 24 |};
          hp_defaultTransitGatewayRouteTable := None;
          hp_flowLogs := ex_rule;
          hp_maxAzs := Some 3 |};
     hub_spokes := [] |}.

(** [hub1] once [spoke1] is attached to it. *)
Definition ex_hub1_spoke1 : FourTierNetworkHub :=
  {| hub_scope := ex_east; hub_id := "hub1";
     hub_props := hub_props ex_hub1;
     hub_spokes := [ex_spoke1] |}.

(** [ex_ctl.addHub(ex_east, 'spoke1-c8bb')]: a hub named like the key of
    [spoke1]. *)
Definition ex_hub3 : FourTierNetworkHub :=
  {| hub_scope := ex_east; hub_id := "spoke1-c8bb";
     hub_props :=
       {| hp_availabilityZones := None;
          hp_cidr := {| req_scope := ex_east; req_id := "spoke1-c8bb"; req_netmask := 16 |};
          hp_defaultTransitGatewayRouteTable := None;
          hp_flowLogs := ex_rule;
          hp_maxAzs := None |};
     hub_spokes := [] |}.

Definition ex_ctl3 : NetworkController :=
  snd (addHub ex_east "spoke1-c8bb" no_hub_options ex_ctl).

End Topology.

(** * Properties *)

(** ** Reading the registry object *)

(** Reading a plain object, case by case. *)
Lemma js_in_false {V : Type} (k : string) (o : gmap string V) :
  js_in k o = false ↔ o !! k = None ∧ inherited k = false.
Proof.
  unfold js_in. rewrite orb_false_iff, bool_decide_eq_false.
  rewrite <- eq_None_not_Some. reflexivity.
Qed.

Lemma js_in_own {V : Type} (k : string) (v : V) (o : gmap string V) :
  o !! k = Some v → js_in k o = true.
Proof.
  intros H. unfold js_in. rewrite bool_decide_eq_true_2; [reflexivity |].
  exists v. exact H.
Qed.

Lemma js_get_own {V : Type} (k : string) (v : V) (o : gmap string V) :
  js_get k o = JsOwn v ↔ o !! k = Some v.
Proof.
  unfold js_get. destruct (o !! k) as [w |].
  - split; intros H; inversion H; reflexivity.
  - destruct (inherited k); split; intros H; discriminate H.
Qed.

Lemma js_get_undefined {V : Type} (k : string) (o : gmap string V) :
  js_get k o = JsUndefined ↔ o !! k = None ∧ inherited k = false.
Proof.
  unfold js_get. destruct (o !! k) as [w |].
  - split; [intros H | intros [H _]]; discriminate H.
  - destruct (inherited k); split; try (intros H; discriminate H); auto.
    intros [_ H]. discriminate H.
Qed.

Lemma js_get_inherited {V : Type} (k name : string) (o : gmap string V) :
  js_get k o = JsInherited name ↔ o !! k = None ∧ inherited k = true ∧ name = k.
Proof.
  unfold js_get. destruct (o !! k) as [w |].
  - split; [intros H | intros [H _]]; discriminate H.
  - destruct (inherited k); split; intros H.
    + inversion H. auto.
    + destruct H as (_ & _ & ->). reflexivity.
    + discriminate H.
    + destruct H as (_ & H & _). discriminate H.
Qed.

Section Properties.

Context {ext : Externals}.

(** *** The tracker methods *)

Lemma includes_elements (s : gset string) (x : string) :
  includes (elements s) x = bool_decide (x ∈ s).
Proof. unfold includes. apply bool_decide_ext, elem_of_elements. Qed.

(** The four outcomes of [registerAccount], in the order of its tests. *)
Lemma registerAccount_eq (account : string) (this : NetworkController) :
  registerAccount account this =
    if bool_decide (account = this_account this) then (Ok tt, this)
    else if bool_decide (account ∈ _registeredAccounts this) then (Ok tt, this)
    else if isUnresolved account then (Throw (SymbolicIdentifierError AccountId), this)
    else (Ok tt, with_registeredAccounts (fun s => s ∪ {[account]}) this).
Proof.
  unfold registerAccount, registeredAccounts. rewrite includes_elements.
  reflexivity.
Qed.

Lemma registerRegion_eq (region : string) (this : NetworkController) :
  registerRegion region this =
    if bool_decide (region = this_region this) then (Ok tt, this)
    else if bool_decide (region ∈ _registeredRegions this) then (Ok tt, this)
    else if isUnresolved region then (Throw (SymbolicIdentifierError RegionId), this)
    else (Ok tt, with_registeredRegions (fun s => s ∪ {[region]}) this).
Proof.
  unfold registerRegion, registeredRegions. rewrite includes_elements.
  reflexivity.
Qed.

Lemma same_config_refl c : same_config c c.
Proof. repeat split. Qed.

Lemma same_config_trans c1 c2 c3 :
  same_config c1 c2 → same_config c2 c3 → same_config c1 c3.
Proof. unfold same_config. intros H1 H2. destruct_and!. repeat split; congruence. Qed.

(** On a resolved account [registerAccount] returns, touching the set of
    accounts only. *)
Lemma registerAccount_resolved (account : string) (this : NetworkController) :
  isUnresolved account = false →
  ∃ this', registerAccount account this = (Ok tt, this') ∧
    same_config this this' ∧
    _hubs this' = _hubs this ∧
    addressManager this' = addressManager this ∧
    _registeredRegions this' = _registeredRegions this ∧
    (_registeredAccounts this' = _registeredAccounts this ∨
     (account ≠ this_account this ∧
      _registeredAccounts this' = _registeredAccounts this ∪ {[account]})).
Proof.
  intros Hres. rewrite registerAccount_eq, Hres.
  repeat case_bool_decide; eexists; (split; [reflexivity |]);
    repeat split; auto.
Qed.

Lemma registerRegion_resolved (region : string) (this : NetworkController) :
  isUnresolved region = false →
  ∃ this', registerRegion region this = (Ok tt, this') ∧
    same_config this this' ∧
    _hubs this' = _hubs this ∧
    addressManager this' = addressManager this ∧
    _registeredAccounts this' = _registeredAccounts this ∧
    (_registeredRegions this' = _registeredRegions this ∨
     (region ≠ this_region this ∧
      _registeredRegions this' = _registeredRegions this ∪ {[region]})).
Proof.
  intros Hres. rewrite registerRegion_eq, Hres.
  repeat case_bool_decide; eexists; (split; [reflexivity |]);
    repeat split; auto.
Qed.

(** *** The outcomes of [addHub] and [addSpoke] *)

Lemma registered_facts (scope : Scope) (this : NetworkController) :
  isUnresolved (scope_account scope) = false →
  isUnresolved (scope_region scope) = false →
  registerAccount (scope_account scope) this =
    (Ok tt, snd (registerAccount (scope_account scope) this)) ∧
  registerRegion (scope_region scope) (snd (registerAccount (scope_account scope) this)) =
    (Ok tt, registered scope this) ∧
  same_config this (registered scope this) ∧
  _hubs (registered scope this) = _hubs this ∧
  addressManager (registered scope this) = addressManager this ∧
  (_registeredAccounts (registered scope this) = _registeredAccounts this ∨
   (scope_account scope ≠ this_account this ∧
    _registeredAccounts (registered scope this) =
      _registeredAccounts this ∪ {[scope_account scope]})) ∧
  (_registeredRegions (registered scope this) = _registeredRegions this ∨
   (scope_region scope ≠ this_region this ∧
    _registeredRegions (registered scope this) =
      _registeredRegions this ∪ {[scope_region scope]})).
Proof.
  intros Ha Hr. unfold registered.
  destruct (registerAccount_resolved (scope_account scope) this Ha)
    as (c1 & E1 & Hc1 & Hh1 & Hm1 & Hr1 & Ha1).
  rewrite E1. simpl.
  destruct (registerRegion_resolved (scope_region scope) c1 Hr)
    as (c2 & E2 & Hc2 & Hh2 & Hm2 & Ha2 & Hr2).
  rewrite E2. simpl.
  assert (this_region c1 = this_region this) as Hreg
    by (unfold this_region; destruct Hc1 as [-> _]; reflexivity).
  destruct Hc1 as (? & ? & ? & ? & ? & ?), Hc2 as (? & ? & ? & ? & ? & ?).
  repeat split; try reflexivity; congruence.
Qed.

(** [addHub], outcome by outcome. *)
Lemma addHub_eq (scope : Scope) (id : string) (options : AddHubOptions)
    (this : NetworkController) :
  addHub scope id options this =
    if isUnresolved (scope_account scope) || isUnresolved (scope_region scope) then
      (Throw (UnboundEnvironmentError AtHub), this)
    else if js_in (scope_region scope) (_hubs this) then
      (Throw (DuplicateHubError (scope_region scope)), this)
    else
      let c := registered scope this in
      let provider := hub_request scope id options c in
      let c' := allocated provider c in
      let hub := new_hub scope id options provider c' in
      (Ok hub, with_hubs (js_set (scope_region scope) hub) c').
Proof.
  unfold addHub.
  destruct (isUnresolved (scope_account scope)) eqn:Ha; [reflexivity |].
  destruct (isUnresolved (scope_region scope)) eqn:Hr; [reflexivity |].
  simpl. destruct (js_in _ _); [reflexivity |].
  destruct (registered_facts scope this Ha Hr) as (E1 & E2 & _).
  unfold bind. rewrite E1, E2. reflexivity.
Qed.

(** [addSpoke], outcome by outcome. *)
Lemma addSpoke_eq (scope : Scope) (id : string) (options : AddNetworkOptions)
    (this : NetworkController) :
  addSpoke scope id options this =
    if isUnresolved (scope_account scope) || isUnresolved (scope_region scope) then
      (Throw (UnboundEnvironmentError AtSpoke), this)
    else
      let c := registered scope this in
      let provider := spoke_request scope id options c in
      let c' := allocated provider c in
      match js_get (scope_region scope) (_hubs this) with
      | JsUndefined => (Throw (MissingHubError (scope_region scope)), this)
      | JsInherited _ => (Throw (TypeError "hub.addSpoke"), c')
      | JsOwn h =>
          let (spoke, h') :=
            FourTierNetworkHub_addSpoke scope id
              (new_spoke_props options provider c') h in
          (Ok spoke, with_hubs (<[scope_region scope := h']>) c')
      end.
Proof.
  unfold addSpoke.
  destruct (isUnresolved (scope_account scope)) eqn:Ha; [reflexivity |].
  destruct (isUnresolved (scope_region scope)) eqn:Hr; [reflexivity |].
  simpl.
  destruct (registered_facts scope this Ha Hr) as (E1 & E2 & _).
  destruct (js_get _ _) as [| h | k]; simpl; [reflexivity | |];
    unfold bind; rewrite E1, E2; reflexivity.
Qed.

(** *** Invariants of the controller *)

Lemma hubs_kept_refl c : hubs_kept c c.
Proof. intros R h H. exists h. auto. Qed.

Lemma hubs_kept_trans c1 c2 c3 :
  hubs_kept c1 c2 → hubs_kept c2 c3 → hubs_kept c1 c3.
Proof.
  intros H12 H23 R h H.
  destruct (H12 R h H) as (h2 & E2 & Hr2 & Hp2).
  destruct (H23 R h2 E2) as (h3 & E3 & Hr3 & Hp3).
  exists h3. repeat split; congruence.
Qed.

Lemma hubs_kept_eq c c' : _hubs c' = _hubs c → hubs_kept c c'.
Proof. intros E R h H. exists h. rewrite E. auto. Qed.

Lemma tracker_ok_registered (scope : Scope) (c : NetworkController) :
  isUnresolved (scope_account scope) = false →
  isUnresolved (scope_region scope) = false →
  tracker_ok c → tracker_ok (registered scope c).
Proof.
  intros Ha Hr (Hown_a & Hown_r & Hres_a & Hres_r).
  destruct (registered_facts scope c Ha Hr)
    as (_ & _ & (Hs & _) & _ & _ & Hacc & Hreg).
  unfold tracker_ok, this_account, this_region in *. rewrite Hs.
  destruct Hacc as [-> | [Hna ->]], Hreg as [-> | [Hnr ->]];
    repeat split; try assumption;
    try (intros x [Hx | ->%elem_of_singleton]%elem_of_union; auto);
    intros [Hx | Hx%elem_of_singleton]%elem_of_union; auto.
Qed.

Lemma tracker_ok_registerAccount (account : string) (c : NetworkController) :
  tracker_ok c → tracker_ok (snd (registerAccount account c)).
Proof.
  intros (Hown_a & Hown_r & Hres_a & Hres_r). rewrite registerAccount_eq.
  case_bool_decide as Hown; [repeat split; assumption |].
  case_bool_decide; [repeat split; assumption |].
  destruct (isUnresolved account) eqn:Hres; [repeat split; assumption |].
  unfold tracker_ok, this_account, this_region in *. simpl.
  repeat split; try assumption.
  - intros [Hx | Hx%elem_of_singleton]%elem_of_union; auto.
  - intros x [Hx | ->%elem_of_singleton]%elem_of_union; auto.
Qed.

Lemma tracker_ok_registerRegion (region : string) (c : NetworkController) :
  tracker_ok c → tracker_ok (snd (registerRegion region c)).
Proof.
  intros (Hown_a & Hown_r & Hres_a & Hres_r). rewrite registerRegion_eq.
  case_bool_decide as Hown; [repeat split; assumption |].
  case_bool_decide; [repeat split; assumption |].
  destruct (isUnresolved region) eqn:Hres; [repeat split; assumption |].
  unfold tracker_ok, this_account, this_region in *. simpl.
  repeat split; try assumption.
  - intros [Hx | Hx%elem_of_singleton]%elem_of_union; auto.
  - intros x [Hx | ->%elem_of_singleton]%elem_of_union; auto.
Qed.

(** Case analysis on a call of [addHub] or [addSpoke]: rewrite it to its
    outcomes and split on the tests. *)
Ltac outcomes :=
  rewrite ?addHub_eq, ?addSpoke_eq;
  repeat match goal with
  | |- context [isUnresolved ?a || isUnresolved ?r] =>
      let Ha := fresh "Hacc" in let Hr := fresh "Hreg" in
      destruct (isUnresolved a) eqn:Ha; [| destruct (isUnresolved r) eqn:Hr];
      cbn [orb]
  | |- context [js_in ?k ?o] =>
      let Hin := fresh "Hin" in destruct (js_in k o) eqn:Hin
  | |- context [js_get ?k ?o] =>
      let Hget := fresh "Hget" in destruct (js_get k o) eqn:Hget
  end;
  cbn [snd fst FourTierNetworkHub_addSpoke].

Lemma step_tracker_ok (op : Op) (c : NetworkController) :
  tracker_ok c → tracker_ok (step op c).
Proof.
  intros Hok.
  destruct op as [scope id o | scope id o | scope id cidr | a | r]; simpl.
  - outcomes; try exact Hok. cbv zeta.
    apply (tracker_ok_registered scope c Hacc Hreg) in Hok. exact Hok.
  - outcomes; try exact Hok; cbv zeta;
      apply (tracker_ok_registered scope c Hacc Hreg) in Hok; exact Hok.
  - exact Hok.
  - apply tracker_ok_registerAccount, Hok.
  - apply tracker_ok_registerRegion, Hok.
Qed.

Lemma step_same_config (op : Op) (c : NetworkController) :
  same_config c (step op c).
Proof.
  destruct op as [scope id o | scope id o | scope id cidr | a | r]; simpl.
  - outcomes; try apply same_config_refl. cbv zeta.
    apply (registered_facts scope c Hacc Hreg).
  - outcomes; try apply same_config_refl; cbv zeta;
      apply (registered_facts scope c Hacc Hreg).
  - repeat split.
  - rewrite registerAccount_eq.
    repeat case_match; repeat split.
  - rewrite registerRegion_eq.
    repeat case_match; repeat split.
Qed.

Lemma step_hubs_kept (op : Op) (c : NetworkController) :
  hubs_kept c (step op c).
Proof.
  destruct op as [scope id o | scope id o | scope id cidr | a | r]; simpl.
  - outcomes; try apply hubs_kept_refl. cbv zeta.
    destruct (registered_facts scope c Hacc Hreg) as (_ & _ & _ & Hh & _).
    apply js_in_false in Hin as [Hnone _].
    intros R h H. exists h. simpl. unfold js_set. rewrite Hh.
    rewrite lookup_insert_ne by congruence. auto.
  - outcomes; try apply hubs_kept_refl; cbv zeta;
      destruct (registered_facts scope c Hacc Hreg) as (_ & _ & _ & Hh & _);
      [| apply hubs_kept_eq; exact Hh].
    apply js_get_own in Hget.
    intros R h H. simpl. rewrite Hh.
    destruct (decide (R = scope_region scope)) as [-> | Hne].
    + rewrite lookup_insert_eq. eexists. split; [reflexivity |].
      assert (h = v) as -> by congruence. auto.
    + rewrite lookup_insert_ne by congruence. exists h. auto.
  - apply hubs_kept_eq. reflexivity.
  - rewrite registerAccount_eq.
    repeat case_match; apply hubs_kept_eq; reflexivity.
  - rewrite registerRegion_eq.
    repeat case_match; apply hubs_kept_eq; reflexivity.
Qed.

Lemma step_hubs_keyed (op : Op) (c : NetworkController) :
  hubs_keyed c → hubs_keyed (step op c).
Proof.
  intros Hk.
  destruct op as [scope id o | scope id o | scope id cidr | a | r]; simpl.
  - outcomes; try exact Hk. cbv zeta.
    destruct (registered_facts scope c Hacc Hreg) as (_ & _ & _ & Hh & _).
    intros R h. simpl. unfold js_set. rewrite Hh.
    destruct (decide (R = scope_region scope)) as [-> | Hne].
    + rewrite lookup_insert_eq. intros [= <-]. reflexivity.
    + rewrite lookup_insert_ne by congruence. apply Hk.
  - outcomes; try exact Hk; cbv zeta;
      destruct (registered_facts scope c Hacc Hreg) as (_ & _ & _ & Hh & _);
      [| intros R h; simpl; rewrite Hh; apply Hk].
    apply js_get_own in Hget.
    intros R h. simpl. rewrite Hh.
    destruct (decide (R = scope_region scope)) as [-> | Hne].
    + rewrite lookup_insert_eq. intros [= <-]. apply (Hk _ _ Hget).
    + rewrite lookup_insert_ne by congruence. apply Hk.
  - exact Hk.
  - rewrite registerAccount_eq.
    repeat case_match; exact Hk.
  - rewrite registerRegion_eq.
    repeat case_match; exact Hk.
Qed.

(** The same along a sequence of calls. *)
Lemma run_cons (op : Op) (ops : list Op) (c : NetworkController) :
  run (op :: ops) c = run ops (step op c).
Proof. reflexivity. Qed.

Lemma run_same_config (ops : list Op) (c : NetworkController) :
  same_config c (run ops c).
Proof.
  revert c. induction ops as [| op ops IH]; intros c.
  - apply same_config_refl.
  - rewrite run_cons.
    exact (same_config_trans _ _ _ (step_same_config op c) (IH _)).
Qed.

Lemma run_hubs_kept (ops : list Op) (c : NetworkController) :
  hubs_kept c (run ops c).
Proof.
  revert c. induction ops as [| op ops IH]; intros c.
  - apply hubs_kept_refl.
  - rewrite run_cons.
    exact (hubs_kept_trans _ _ _ (step_hubs_kept op c) (IH _)).
Qed.

Lemma run_tracker_ok (ops : list Op) (c : NetworkController) :
  tracker_ok c → tracker_ok (run ops c).
Proof.
  revert c. induction ops as [| op ops IH]; intros c Hok.
  - exact Hok.
  - rewrite run_cons. apply IH, step_tracker_ok, Hok.
Qed.

Lemma run_hubs_keyed (ops : list Op) (c : NetworkController) :
  hubs_keyed c → hubs_keyed (run ops c).
Proof.
  revert c. induction ops as [| op ops IH]; intros c Hk.
  - exact Hk.
  - rewrite run_cons. apply IH, step_hubs_keyed, Hk.
Qed.

(** A controller fresh from its constructor. *)
Lemma new_inv (scope : Scope) (id : string) (props : NetworkControllerProps)
    (c : NetworkController) :
  NetworkController_new scope id props = Ok c →
  ctrl_scope c = scope ∧ _hubs c = ∅ ∧
  _registeredAccounts c = ∅ ∧ _registeredRegions c = ∅ ∧
  ledger (addressManager c) = [] ∧
  isUnresolved (scope_account scope) = false ∧
  isUnresolved (scope_region scope) = false.
Proof.
  unfold NetworkController_new.
  destruct (isUnresolved (scope_account scope)); [discriminate |].
  destruct (isUnresolved (scope_region scope)); [discriminate |].
  intros [= <-]. repeat split.
Qed.

Lemma new_tracker_ok scope id props c :
  NetworkController_new scope id props = Ok c → tracker_ok c.
Proof.
  intros (_ & _ & Ha & Hr & _)%new_inv. unfold tracker_ok.
  rewrite Ha, Hr. repeat split; intros *; apply not_elem_of_empty || (intros H; exfalso; revert H; apply not_elem_of_empty).
Qed.

Lemma new_hubs_keyed scope id props c :
  NetworkController_new scope id props = Ok c → hubs_keyed c.
Proof.
  intros (_ & Hh & _)%new_inv R h. rewrite Hh, lookup_empty. discriminate.
Qed.

(** *** One hub per region *)

(** C1, as amended.  Whatever [addHub] returns or throws:
    - when it returns a hub for the region [R] of its scope, the registry
      holds that hub under [R]; after any further calls the registry
      still holds under [R] a hub with the same identity and properties,
      and every [addHub] whose scope has region [R] throws and leaves the
      controller as it was: [DuplicateHubError] for [R] when the account
      of the scope is resolved, [UnboundEnvironmentError] when it is a
      token, because the environment is tested first;
    - when it throws [UnboundEnvironmentError] or [DuplicateHubError],
      the controller, so also the registry, is unchanged. *)
Theorem addHub_once (c : NetworkController) (scope : Scope) (id : string)
    (options : AddHubOptions) (r : Result FourTierNetworkHub)
    (c1 : NetworkController) :
  addHub scope id options c = (r, c1) →
  match r with
  | Ok hub =>
      _hubs c1 !! scope_region scope = Some hub ∧
      ∀ (ops : list Op) (scope' : Scope) (id' : string) (options' : AddHubOptions),
        scope_region scope' = scope_region scope →
        let c2 := run ops c1 in
        (∃ hub', _hubs c2 !! scope_region scope = Some hub' ∧
                 hub_ref hub' = hub_ref hub ∧ hub_props hub' = hub_props hub) ∧
        addHub scope' id' options' c2 =
          (Throw (if isUnresolved (scope_account scope')
                  then UnboundEnvironmentError AtHub
                  else DuplicateHubError (scope_region scope)), c2)
  | Throw e =>
      e = UnboundEnvironmentError AtHub ∨
      e = DuplicateHubError (scope_region scope) →
      c1 = c ∧ _hubs c1 = _hubs c
  end.
Proof.
  rewrite addHub_eq.
  destruct (isUnresolved (scope_account scope)) eqn:Hacc;
    [intros [= <- <-]; auto |].
  destruct (isUnresolved (scope_region scope)) eqn:Hreg;
    [intros [= <- <-]; auto |].
  cbn [orb]. destruct (js_in _ _) eqn:Hin; [intros [= <- <-]; auto |].
  cbv zeta.
  match goal with |- (Ok ?h, ?c) = _ → _ => set (hub := h); set (c2 := c) end.
  intros [= <- <-]. subst c2. simpl.
  split; [apply lookup_insert_eq |].
  intros ops scope' id' options' HR.
  match goal with |- context [run ops ?c] => set (c1 := c) end.
  assert (_hubs c1 !! scope_region scope = Some hub) as Hc1
    by apply lookup_insert_eq.
  destruct (run_hubs_kept ops c1 _ _ Hc1) as (hub' & Hlook & Href & Hprops).
  split; [exists hub'; auto |].
  rewrite addHub_eq, HR, Hreg, orb_false_r.
  destruct (isUnresolved (scope_account scope')); [reflexivity |].
  rewrite (js_in_own _ _ _ Hlook). reflexivity.
Qed.

(** *** A spoke needs a hub *)

(** C2, as amended.  When no hub is held under the region [R] of the
    scope, and [R] is not the name of a property that the registry object
    inherits, [addSpoke] throws and the controller is as before the call,
    so that no address range was requested and no account or region was
    registered.  The error is [MissingHubError] for [R] when the account
    and the region of the scope are resolved, and
    [UnboundEnvironmentError] otherwise. *)
Theorem addSpoke_without_hub (c : NetworkController) (scope : Scope)
    (id : string) (options : AddNetworkOptions) :
  _hubs c !! scope_region scope = None →
  inherited (scope_region scope) = false →
  addSpoke scope id options c =
    (Throw (if isUnresolved (scope_account scope) || isUnresolved (scope_region scope)
            then UnboundEnvironmentError AtSpoke
            else MissingHubError (scope_region scope)), c) ∧
  let c' := snd (addSpoke scope id options c) in
  ledger (addressManager c') = ledger (addressManager c) ∧
  registeredAccounts c' = registeredAccounts c ∧
  registeredRegions c' = registeredRegions c ∧
  _hubs c' = _hubs c.
Proof.
  intros Hnone Hinh.
  assert (js_get (scope_region scope) (_hubs c) = JsUndefined) as Hget
    by (apply js_get_undefined; auto).
  assert (addSpoke scope id options c =
    (Throw (if isUnresolved (scope_account scope) || isUnresolved (scope_region scope)
            then UnboundEnvironmentError AtSpoke
            else MissingHubError (scope_region scope)), c)) as E.
  { rewrite addSpoke_eq, Hget.
    destruct (isUnresolved (scope_account scope) || isUnresolved (scope_region scope));
      reflexivity. }
  split; [exact E |]. rewrite E. simpl. auto.
Qed.

(** C10.  Take a region [R] that names a property the registry object
    inherits ([toString], [constructor], ...), a controller that holds no
    hub under [R], and a scope of region [R] whose account and region are
    resolved.  Then [addHub] throws [DuplicateHubError] for [R] although
    there is no hub, and [addSpoke] does not throw [MissingHubError]: it
    goes on to register the account and the region, requests an address
    range, and only fails when it calls [addSpoke] on the inherited
    member. *)
Theorem inherited_region_is_taken (c : NetworkController) (scope : Scope)
    (id : string) :
  scope_region scope ∈ Object_prototype_keys →
  _hubs c !! scope_region scope = None →
  isUnresolved (scope_account scope) = false →
  isUnresolved (scope_region scope) = false →
  (∀ options : AddHubOptions,
     addHub scope id options c =
       (Throw (DuplicateHubError (scope_region scope)), c)) ∧
  (∀ options : AddNetworkOptions,
     let (r, c') := addSpoke scope id options c in
     r = Throw (TypeError "hub.addSpoke") ∧
     r ≠ Throw (MissingHubError (scope_region scope)) ∧
     ledger (addressManager c') =
       (ledger (addressManager c) ++
          [Allocation (spoke_request scope id options c)])%list).
Proof.
  intros Hkey Hnone Hacc Hreg.
  assert (inherited (scope_region scope) = true) as Hinh
    by (apply bool_decide_eq_true_2, Hkey).
  split; intros options.
  - rewrite addHub_eq, Hacc, Hreg. cbn [orb].
    unfold js_in. rewrite Hinh, orb_true_r. reflexivity.
  - rewrite addSpoke_eq, Hacc, Hreg. cbn [orb].
    assert (js_get (scope_region scope) (_hubs c) = JsInherited (scope_region scope))
      as -> by (apply js_get_inherited; auto).
    cbv zeta.
    destruct (registered_facts scope c Hacc Hreg)
      as (_ & _ & (_ & _ & Hmask & _) & _ & Ham & _).
    repeat split; [discriminate |].
    simpl. rewrite Ham. unfold spoke_request. rewrite Hmask. reflexivity.
Qed.

(** *** The tracker *)

(** C3.  Start from a controller that its constructor returned and make
    any sequence of calls of [addHub], [addSpoke], [registerCidr],
    [registerAccount] and [registerRegion], whether they return or throw.
    Then [registeredAccounts] does not contain the controller's own
    account, [registeredRegions] does not contain its own region, and
    neither contains a token. *)
Theorem tracker_invariant (scope : Scope) (id : string)
    (props : NetworkControllerProps) (c0 : NetworkController) :
  NetworkController_new scope id props = Ok c0 →
  ∀ ops : list Op,
    let c := run ops c0 in
    this_account c = scope_account scope ∧
    this_region c = scope_region scope ∧
    (this_account c ∉ registeredAccounts c) ∧
    (this_region c ∉ registeredRegions c) ∧
    (∀ a, a ∈ registeredAccounts c → isUnresolved a = false) ∧
    (∀ r, r ∈ registeredRegions c → isUnresolved r = false).
Proof.
  intros Hnew ops c.
  destruct (run_tracker_ok ops c0 (new_tracker_ok _ _ _ _ Hnew))
    as (Ha & Hr & Hra & Hrr).
  destruct (run_same_config ops c0) as (Hs & _).
  destruct (new_inv _ _ _ _ Hnew) as (Hs0 & _).
  fold c in Ha, Hr, Hra, Hrr, Hs.
  unfold registeredAccounts, registeredRegions, this_account, this_region in *.
  rewrite Hs, Hs0 in *.
  repeat split; try reflexivity.
  - rewrite elem_of_elements. exact Ha.
  - rewrite elem_of_elements. exact Hr.
  - intros a Hin%elem_of_elements. auto.
  - intros r Hin%elem_of_elements. auto.
Qed.

(** C4.  For a resolved account other than the controller's own, and from
    any controller, [registerAccount] returns; a second call with the
    same account returns as well and changes nothing; and
    [registeredAccounts] then lists the account exactly once. *)
Theorem registerAccount_idempotent (c : NetworkController) (account : string) :
  isUnresolved account = false →
  account ≠ this_account c →
  ∃ c1, registerAccount account c = (Ok tt, c1) ∧
        registerAccount account c1 = (Ok tt, c1) ∧
        count_occ string_dec (registeredAccounts c1) account = 1%nat.
Proof.
  intros Hres Hown.
  assert (∀ c' : NetworkController, account ∈ _registeredAccounts c' →
            count_occ string_dec (registeredAccounts c') account = 1%nat) as Hcount.
  { intros c' Hin. unfold registeredAccounts. apply NoDup_count_occ'.
    - apply NoDup_ListNoDup. apply NoDup_elements.
    - apply (proj1 (list_elem_of_In _ _)).
      apply elem_of_elements. exact Hin. }
  rewrite registerAccount_eq, Hres.
  rewrite (bool_decide_eq_false_2 _ Hown).
  case_bool_decide as Hin.
  - exists c. rewrite registerAccount_eq.
    rewrite (bool_decide_eq_false_2 _ Hown), (bool_decide_eq_true_2 _ Hin).
    auto.
  - eexists. split; [reflexivity |].
    assert (account ∈ _registeredAccounts
              (with_registeredAccounts (λ s, s ∪ {[account]}) c)) as Hin'
      by (simpl; apply elem_of_union_r, elem_of_singleton; reflexivity).
    rewrite registerAccount_eq.
    replace (this_account (with_registeredAccounts (λ s, s ∪ {[account]}) c))
      with (this_account c) by reflexivity.
    rewrite (bool_decide_eq_false_2 _ Hown), (bool_decide_eq_true_2 _ Hin').
    auto.
Qed.

(** C5.  For a token that is neither the controller's own account nor
    already registered, [registerAccount] throws
    [SymbolicIdentifierError] and leaves the controller, and so
    [registeredAccounts], as it was. *)
Theorem registerAccount_symbolic (c : NetworkController) (account : string) :
  isUnresolved account = true →
  account ≠ this_account c →
  account ∉ registeredAccounts c →
  registerAccount account c = (Throw (SymbolicIdentifierError AccountId), c) ∧
  registeredAccounts (snd (registerAccount account c)) = registeredAccounts c.
Proof.
  intros Hres Hown Hin.
  assert (registerAccount account c =
            (Throw (SymbolicIdentifierError AccountId), c)) as E.
  { rewrite registerAccount_eq, Hres.
    rewrite (bool_decide_eq_false_2 _ Hown).
    rewrite bool_decide_eq_false_2; [reflexivity |].
    intros H. apply Hin. unfold registeredAccounts.
    apply elem_of_elements. exact H. }
  rewrite E. auto.
Qed.

(** *** Construction *)

(** C6.  The constructor throws [UnboundEnvironmentError] exactly when
    the account or the region of the controller's stack is a token; it
    throws nothing else; and when it returns, the controller's own
    account and region are both resolved. *)
Theorem constructor_environment (scope : Scope) (id : string)
    (props : NetworkControllerProps) :
  (NetworkController_new scope id props = Throw (UnboundEnvironmentError AtController)
   ↔ isUnresolved (scope_account scope) = true ∨
     isUnresolved (scope_region scope) = true) ∧
  match NetworkController_new scope id props with
  | Ok c =>
      ctrl_scope c = scope ∧
      isUnresolved (this_account c) = false ∧
      isUnresolved (this_region c) = false
  | Throw e => e = UnboundEnvironmentError AtController
  end.
Proof.
  unfold NetworkController_new, this_account, this_region.
  destruct (isUnresolved (scope_account scope)) eqn:Ha;
    destruct (isUnresolved (scope_region scope)) eqn:Hr; cbn [orb]; simpl.
  1-3: split; [split; [intros _; auto | intros _; reflexivity] | reflexivity].
  split; [split; [intros H; discriminate H | intros [H | H]; discriminate H] |].
  rewrite Ha, Hr. auto.
Qed.

(** *** What a hub and a spoke are created with *)

(** C7.  A call of [addHub] that returns has made exactly one request to
    the address manager, for the scope and the identifier of the hub, and
    the netmask of the request is [options.netmask] when the caller gave
    one and the controller's [defaultNetmask] otherwise; the hub holds
    the provider that answers this request. *)
Theorem addHub_netmask (c : NetworkController) (scope : Scope) (id : string)
    (options : AddHubOptions) (hub : FourTierNetworkHub) (c1 : NetworkController) :
  addHub scope id options c = (Ok hub, c1) →
  let request :=
    {| req_scope := scope; req_id := id;
       req_netmask :=
         match netmask options with
         | Some m => m
         | None => defaultNetmask c
         end |} in
  ledger (addressManager c1) = (ledger (addressManager c) ++ [Allocation request])%list ∧
  hp_cidr (hub_props hub) = request.
Proof.
  rewrite addHub_eq.
  destruct (isUnresolved (scope_account scope)) eqn:Hacc; [discriminate |].
  destruct (isUnresolved (scope_region scope)) eqn:Hreg; [discriminate |].
  cbn [orb]. destruct (js_in _ _); [discriminate |].
  cbv zeta. intros [= <- <-].
  destruct (registered_facts scope c Hacc Hreg)
    as (_ & _ & (_ & _ & Hmask & _) & _ & Ham & _).
  simpl. unfold hub_request, nullish. rewrite Ham, Hmask. auto.
Qed.

Lemma default_flowLogs_same (c c' : NetworkController) :
  same_config c c' → default_flowLogs c' = default_flowLogs c.
Proof.
  intros (_ & _ & _ & Hf & Hb & _). unfold default_flowLogs.
  rewrite Hf, Hb. reflexivity.
Qed.

(** C8.  Let [c0] be the controller that the constructor returned.  Its
    log format is the one given to the constructor, [V5] when none was
    given.  After any sequence of calls, a hub returned by [addHub] and a
    spoke returned by [addSpoke] have, as their flow logs, the single
    rule ['flow-log-default'] whose destination is the log bucket of [c0]
    and whose format is the log format of [c0]. *)
Theorem default_rule_everywhere (scope0 : Scope) (id0 : string)
    (props : NetworkControllerProps) (c0 : NetworkController) :
  NetworkController_new scope0 id0 props = Ok c0 →
  let rule : FlowLogs :=
    [("flow-log-default",
      {| destination := toS3 (flowLogBucket c0);
         logFormatDefinition := flowLogFormat c0 |})] in
  flowLogFormat c0 = (props_flowLogFormat props ?? V5) ∧
  ∀ (ops : list Op) (scope : Scope) (id : string),
    let c := run ops c0 in
    (∀ (options : AddHubOptions) hub c',
       addHub scope id options c = (Ok hub, c') →
       hp_flowLogs (hub_props hub) = rule) ∧
    (∀ (options : AddNetworkOptions) spoke c',
       addSpoke scope id options c = (Ok spoke, c') →
       sp_flowLogs (spoke_props spoke) = rule).
Proof.
  intros Hnew rule. split.
  { unfold NetworkController_new in Hnew.
    destruct (_ || _); [discriminate |]. injection Hnew as <-. reflexivity. }
  intros ops scope id c.
  assert (default_flowLogs c = rule) as Hrule
    by apply (default_flowLogs_same c0 c), run_same_config.
  split; intros options.
  - intros hub c'. rewrite addHub_eq.
    destruct (isUnresolved (scope_account scope)) eqn:Hacc; [discriminate |].
    destruct (isUnresolved (scope_region scope)) eqn:Hreg; [discriminate |].
    cbn [orb]. destruct (js_in _ _); [discriminate |].
    cbv zeta. intros [= <- <-]. simpl.
    rewrite <- Hrule. apply default_flowLogs_same.
    apply (registered_facts scope c Hacc Hreg).
  - intros spoke c'. rewrite addSpoke_eq.
    destruct (isUnresolved (scope_account scope)) eqn:Hacc; [discriminate |].
    destruct (isUnresolved (scope_region scope)) eqn:Hreg; [discriminate |].
    cbn [orb]. cbv zeta.
    destruct (js_get _ _) as [| h | k]; [discriminate | | discriminate].
    simpl. intros [= <- <-]. simpl.
    rewrite <- Hrule. apply default_flowLogs_same.
    apply (registered_facts scope c Hacc Hreg).
Qed.

(** C9.  After any sequence of calls on a controller that the constructor
    returned, a call of [addSpoke] that returns a spoke found a hub under
    the region of the scope; the spoke refers back to that hub, lives in
    the same region as it, and is the last of the spokes attached to the
    hub that the registry holds under this region after the call. *)
Theorem spoke_region_is_hub_region (scope0 : Scope) (id0 : string)
    (props : NetworkControllerProps) (c0 : NetworkController)
    (ops : list Op) (scope : Scope) (id : string)
    (options : AddNetworkOptions) (spoke : FourTierNetworkSpoke)
    (c' : NetworkController) :
  NetworkController_new scope0 id0 props = Ok c0 →
  addSpoke scope id options (run ops c0) = (Ok spoke, c') →
  ∃ hub,
    _hubs (run ops c0) !! scope_region scope = Some hub ∧
    spoke_hub spoke = hub_ref hub ∧
    spoke_region spoke = hub_region hub ∧
    ∃ hub', _hubs c' !! scope_region scope = Some hub' ∧
            hub_ref hub' = hub_ref hub ∧
            hub_spokes hub' = (hub_spokes hub ++ [spoke])%list ∧
            hub_region hub' = spoke_region spoke.
Proof.
  intros Hnew.
  pose proof (run_hubs_keyed ops c0 (new_hubs_keyed _ _ _ _ Hnew)) as Hkeyed.
  rewrite addSpoke_eq.
  destruct (isUnresolved (scope_account scope)) eqn:Hacc; [discriminate |].
  destruct (isUnresolved (scope_region scope)) eqn:Hreg; [discriminate |].
  cbn [orb]. cbv zeta.
  destruct (js_get _ _) as [| h | k] eqn:Hget; [discriminate | | discriminate].
  apply js_get_own in Hget. simpl. intros [= <- <-].
  pose proof (Hkeyed _ _ Hget) as Hregion.
  exists h. unfold spoke_region. simpl.
  repeat split; auto.
  eexists. split; [apply lookup_insert_eq |].
  unfold hub_region, hub_ref in *. simpl. auto.
Qed.

(** ** Further properties of the controller *)

(** *** What the calls do to the tracker, the registry and the ledger *)

Lemma registerAccount_accounts (account : string) (c : NetworkController) :
  isUnresolved account = false →
  ∀ x, x ∈ _registeredAccounts (snd (registerAccount account c)) ↔
       x ∈ _registeredAccounts c ∨ (x = account ∧ account ≠ this_account c).
Proof.
  intros Hres x. rewrite registerAccount_eq, Hres.
  case_bool_decide as Hown; [simpl; split; [auto | intros [H | [_ H]]; [exact H | contradiction]] |].
  case_bool_decide as Hin; simpl.
  - split; [auto | intros [H | [-> _]]; assumption].
  - rewrite elem_of_union, elem_of_singleton.
    split; intros [H | H]; auto. destruct H as [H _]. auto.
Qed.

Lemma registerRegion_regions (region : string) (c : NetworkController) :
  isUnresolved region = false →
  ∀ x, x ∈ _registeredRegions (snd (registerRegion region c)) ↔
       x ∈ _registeredRegions c ∨ (x = region ∧ region ≠ this_region c).
Proof.
  intros Hres x. rewrite registerRegion_eq, Hres.
  case_bool_decide as Hown; [simpl; split; [auto | intros [H | [_ H]]; [exact H | contradiction]] |].
  case_bool_decide as Hin; simpl.
  - split; [auto | intros [H | [-> _]]; assumption].
  - rewrite elem_of_union, elem_of_singleton.
    split; intros [H | H]; auto. destruct H as [H _]. auto.
Qed.

(** The tracker once the account and the region of a scope went through
    [registerAccount] and [registerRegion]. *)
Lemma registered_tracker (scope : Scope) (c : NetworkController) :
  isUnresolved (scope_account scope) = false →
  isUnresolved (scope_region scope) = false →
  (∀ x, x ∈ _registeredAccounts (registered scope c) ↔
        x ∈ _registeredAccounts c ∨
        (x = scope_account scope ∧ scope_account scope ≠ this_account c)) ∧
  (∀ x, x ∈ _registeredRegions (registered scope c) ↔
        x ∈ _registeredRegions c ∨
        (x = scope_region scope ∧ scope_region scope ≠ this_region c)).
Proof.
  intros Ha Hr. unfold registered.
  destruct (registerAccount_resolved (scope_account scope) c Ha)
    as (c1 & E1 & (Hs1 & _) & _ & _ & Hr1 & _).
  pose proof (registerAccount_accounts (scope_account scope) c Ha) as Hacc.
  rewrite E1 in Hacc |- *. simpl in Hacc |- *.
  destruct (registerRegion_resolved (scope_region scope) c1 Hr)
    as (c2 & E2 & _ & _ & _ & Ha2 & _).
  pose proof (registerRegion_regions (scope_region scope) c1 Hr) as Hreg.
  rewrite E2 in Hreg |- *. simpl in Hreg |- *.
  split; intros x.
  - rewrite Ha2. apply Hacc.
  - rewrite Hreg, Hr1. unfold this_region. rewrite Hs1. reflexivity.
Qed.

(** A call of [addHub] that returns: what held before and what holds
    after. *)
Lemma addHub_success (c : NetworkController) (scope : Scope) (id : string)
    (options : AddHubOptions) (hub : FourTierNetworkHub) (c' : NetworkController) :
  addHub scope id options c = (Ok hub, c') →
  isUnresolved (scope_account scope) = false ∧
  isUnresolved (scope_region scope) = false ∧
  _hubs c !! scope_region scope = None ∧
  inherited (scope_region scope) = false ∧
  hub = new_hub scope id options (hub_request scope id options c) c ∧
  _hubs c' = <[scope_region scope := hub]> (_hubs c) ∧
  same_config c c' ∧
  ledger (addressManager c') =
    (ledger (addressManager c) ++ [Allocation (hub_request scope id options c)])%list ∧
  _registeredAccounts c' = _registeredAccounts (registered scope c) ∧
  _registeredRegions c' = _registeredRegions (registered scope c).
Proof.
  rewrite addHub_eq.
  destruct (isUnresolved (scope_account scope)) eqn:Hacc; [discriminate |].
  destruct (isUnresolved (scope_region scope)) eqn:Hreg; [discriminate |].
  cbn [orb]. destruct (js_in _ _) eqn:Hin; [discriminate |].
  apply js_in_false in Hin as [Hnone Hinh].
  cbv zeta. intros [= <- <-].
  destruct (registered_facts scope c Hacc Hreg)
    as (_ & _ & Hcfg & Hh & Ham & _).
  assert (hub_request scope id options (registered scope c) =
          hub_request scope id options c) as Hreq
    by (unfold hub_request; destruct Hcfg as (_ & _ & -> & _); reflexivity).
  assert (∀ r, new_hub scope id options r (allocated r (registered scope c)) =
               new_hub scope id options r c) as Hnew.
  { intros r. unfold new_hub.
    replace (default_flowLogs (allocated r (registered scope c)))
      with (default_flowLogs c); [reflexivity |].
    symmetry. apply (default_flowLogs_same c (registered scope c)), Hcfg. }
  rewrite Hreq, Hnew. repeat split; try assumption; try apply Hcfg.
  - simpl. unfold js_set. rewrite Hh. reflexivity.
  - simpl. rewrite Ham. reflexivity.
Qed.

(** A call of [addSpoke] that returns. *)
Lemma addSpoke_success (c : NetworkController) (scope : Scope) (id : string)
    (options : AddNetworkOptions) (spoke : FourTierNetworkSpoke)
    (c' : NetworkController) :
  addSpoke scope id options c = (Ok spoke, c') →
  isUnresolved (scope_account scope) = false ∧
  isUnresolved (scope_region scope) = false ∧
  ∃ hub,
    _hubs c !! scope_region scope = Some hub ∧
    spoke =
      {| spoke_scope := scope; spoke_id := id;
         spoke_props := new_spoke_props options (spoke_request scope id options c) c;
         spoke_hub := hub_ref hub |} ∧
    _hubs c' =
      <[scope_region scope :=
          {| hub_scope := hub_scope hub; hub_id := hub_id hub;
             hub_props := hub_props hub;
             hub_spokes := hub_spokes hub ++ [spoke] |}]> (_hubs c) ∧
    same_config c c' ∧
    ledger (addressManager c') =
      (ledger (addressManager c) ++ [Allocation (spoke_request scope id options c)])%list ∧
    _registeredAccounts c' = _registeredAccounts (registered scope c) ∧
    _registeredRegions c' = _registeredRegions (registered scope c).
Proof.
  rewrite addSpoke_eq.
  destruct (isUnresolved (scope_account scope)) eqn:Hacc; [discriminate |].
  destruct (isUnresolved (scope_region scope)) eqn:Hreg; [discriminate |].
  cbn [orb]. cbv zeta.
  destruct (js_get _ _) as [| h | k] eqn:Hget; [discriminate | | discriminate].
  apply js_get_own in Hget. simpl. intros [= <- <-].
  destruct (registered_facts scope c Hacc Hreg)
    as (_ & _ & Hcfg & Hh & Ham & _).
  assert (spoke_request scope id options (registered scope c) =
          spoke_request scope id options c) as Hreq
    by (unfold spoke_request; destruct Hcfg as (_ & _ & -> & _); reflexivity).
  assert (new_spoke_props options (spoke_request scope id options (registered scope c))
            (allocated (spoke_request scope id options (registered scope c))
               (registered scope c)) =
          new_spoke_props options (spoke_request scope id options c) c) as Hprops.
  { rewrite Hreq. unfold new_spoke_props.
    replace (default_flowLogs (allocated (spoke_request scope id options c)
                                 (registered scope c)))
      with (default_flowLogs c); [reflexivity |].
    symmetry. apply (default_flowLogs_same c (registered scope c)), Hcfg. }
  rewrite Hprops, Hreq.
  repeat split; try assumption.
  exists h. repeat split; try assumption; try apply Hcfg.
  - simpl. rewrite Hh. reflexivity.
  - simpl. rewrite Ham. reflexivity.
Qed.

(** What every call does, whether it returns or throws: the tracker only
    grows, and the ledger is extended by the manual registration that
    the call asks for, if any, and by allocation requests. *)
Lemma registered_grows (scope : Scope) (c : NetworkController) :
  isUnresolved (scope_account scope) = false →
  isUnresolved (scope_region scope) = false →
  _registeredAccounts c ⊆ _registeredAccounts (registered scope c) ∧
  _registeredRegions c ⊆ _registeredRegions (registered scope c).
Proof.
  intros Ha Hr. destruct (registered_tracker scope c Ha Hr) as [Hacc Hreg].
  split; intros x Hx; [apply Hacc | apply Hreg]; auto.
Qed.

Lemma step_grows (op : Op) (c : NetworkController) :
  _registeredAccounts c ⊆ _registeredAccounts (step op c) ∧
  _registeredRegions c ⊆ _registeredRegions (step op c) ∧
  ∃ l, ledger (addressManager (step op c)) = (ledger (addressManager c) ++ l)%list ∧
       manual_entries l = cidr_ops [op].
Proof.
  assert (∀ c0 : NetworkController,
            _registeredAccounts c0 ⊆ _registeredAccounts c0 ∧
            _registeredRegions c0 ⊆ _registeredRegions c0 ∧
            ∃ l, ledger (addressManager c0) = (ledger (addressManager c0) ++ l)%list ∧
                 manual_entries l = []) as Hsame.
  { intros c0. repeat split; try reflexivity.
    exists []. rewrite app_nil_r. auto. }
  destruct op as [scope id o | scope id o | scope id cidr | a | r]; simpl.
  - outcomes; try apply Hsame. cbv zeta. simpl.
    destruct (registered_grows scope c Hacc Hreg) as [Ha Hr].
    destruct (registered_facts scope c Hacc Hreg) as (_ & _ & _ & _ & Ham & _).
    repeat split; try assumption.
    eexists. rewrite Ham. split; reflexivity.
  - outcomes; try apply Hsame; cbv zeta; simpl;
      destruct (registered_grows scope c Hacc Hreg) as [Ha Hr];
      destruct (registered_facts scope c Hacc Hreg) as (_ & _ & _ & _ & Ham & _);
      (repeat split; try assumption);
      eexists; rewrite Ham; split; reflexivity.
  - repeat split; try reflexivity. eexists. split; reflexivity.
  - rewrite registerAccount_eq.
    repeat case_match; try apply Hsame. simpl.
    repeat split; try reflexivity; [apply union_subseteq_l |].
    exists []. rewrite app_nil_r. auto.
  - rewrite registerRegion_eq.
    repeat case_match; try apply Hsame. simpl.
    repeat split; try reflexivity; [apply union_subseteq_l |].
    exists []. rewrite app_nil_r. auto.
Qed.

Lemma run_grows (ops : list Op) (c : NetworkController) :
  _registeredAccounts c ⊆ _registeredAccounts (run ops c) ∧
  _registeredRegions c ⊆ _registeredRegions (run ops c) ∧
  ∃ l, ledger (addressManager (run ops c)) = (ledger (addressManager c) ++ l)%list ∧
       manual_entries l = cidr_ops ops.
Proof.
  revert c. induction ops as [| op ops IH]; intros c.
  - repeat split; try reflexivity. exists []. rewrite app_nil_r. auto.
  - rewrite run_cons.
    destruct (step_grows op c) as (Ha1 & Hr1 & l1 & El1 & Hm1).
    destruct (IH (step op c)) as (Ha2 & Hr2 & l2 & El2 & Hm2).
    split; [etrans; eassumption |]. split; [etrans; eassumption |].
    exists (l1 ++ l2)%list. split.
    + rewrite El2, El1, app_assoc. reflexivity.
    + unfold manual_entries, cidr_ops in *.
      change (op :: ops) with ([op] ++ ops)%list.
      rewrite !omap_app, Hm1, Hm2. reflexivity.
Qed.

(** *** The registry and the tracker together *)

Lemma tracked_mono (c c' : NetworkController) (scope : Scope) :
  same_config c c' →
  _registeredAccounts c ⊆ _registeredAccounts c' →
  _registeredRegions c ⊆ _registeredRegions c' →
  tracked c scope → tracked c' scope.
Proof.
  intros (Hs & _) Ha Hr [Hacc Hreg].
  unfold tracked, this_account, this_region, registeredAccounts, registeredRegions in *.
  rewrite Hs. setoid_rewrite elem_of_elements.
  setoid_rewrite elem_of_elements in Hacc.
  setoid_rewrite elem_of_elements in Hreg.
  split; [destruct Hacc | destruct Hreg]; auto.
Qed.

Lemma tracked_registered (scope : Scope) (c c' : NetworkController) :
  isUnresolved (scope_account scope) = false →
  isUnresolved (scope_region scope) = false →
  same_config c c' →
  _registeredAccounts c' = _registeredAccounts (registered scope c) →
  _registeredRegions c' = _registeredRegions (registered scope c) →
  tracked c' scope.
Proof.
  intros Ha Hr (Hs & _) Eacc Ereg.
  destruct (registered_tracker scope c Ha Hr) as [Hacc Hreg].
  unfold tracked, this_account, this_region, registeredAccounts, registeredRegions.
  rewrite Hs. setoid_rewrite elem_of_elements. rewrite Eacc, Ereg.
  split.
  - destruct (decide (scope_account scope = scope_account (ctrl_scope c))); [auto |].
    right. apply Hacc. auto.
  - destruct (decide (scope_region scope = scope_region (ctrl_scope c))); [auto |].
    right. apply Hreg. auto.
Qed.

Lemma hub_ok_mono (c c' : NetworkController) (R : string) (h h' : FourTierNetworkHub) :
  same_config c c' →
  _registeredAccounts c ⊆ _registeredAccounts c' →
  _registeredRegions c ⊆ _registeredRegions c' →
  hub_scope h' = hub_scope h → hub_props h' = hub_props h →
  hub_ok c R h → hub_ok c' R h'.
Proof.
  intros Hcfg Ha Hr Hscope Hprops (H1 & H2 & H3 & H4 & H5 & H6).
  unfold hub_ok. rewrite Hscope, Hprops, (default_flowLogs_same c c' Hcfg).
  exact (conj H1 (conj H2 (conj H3 (conj H4 (conj H5
           (tracked_mono c c' _ Hcfg Ha Hr H6)))))).
Qed.

Lemma spoke_ok_mono (c c' : NetworkController) (R : string)
    (h h' : FourTierNetworkHub) (s : FourTierNetworkSpoke) :
  same_config c c' →
  _registeredAccounts c ⊆ _registeredAccounts c' →
  _registeredRegions c ⊆ _registeredRegions c' →
  hub_ref h' = hub_ref h →
  spoke_ok c R h s → spoke_ok c' R h' s.
Proof.
  intros Hcfg Ha Hr Href (H1 & H2 & H3 & H4 & H5).
  unfold spoke_ok. rewrite Href, (default_flowLogs_same c c' Hcfg).
  exact (conj H1 (conj H2 (conj H3 (conj H4
           (tracked_mono c c' _ Hcfg Ha Hr H5))))).
Qed.

(** A call either leaves the registry as it is, or is an [addHub] or an
    [addSpoke] that returned. *)
Lemma step_registry (op : Op) (c : NetworkController) :
  _hubs (step op c) = _hubs c ∨
  (∃ scope id o hub,
     op = OpAddHub scope id o ∧ addHub scope id o c = (Ok hub, step op c)) ∨
  (∃ scope id o spoke,
     op = OpAddSpoke scope id o ∧ addSpoke scope id o c = (Ok spoke, step op c)).
Proof.
  destruct op as [scope id o | scope id o | scope id cidr | a | r]; simpl.
  - destruct (addHub scope id o c) as [[hub | e] c'] eqn:E.
    + right. left. exists scope, id, o, hub. auto.
    + left. revert E. outcomes; intros [= _ <-]; reflexivity.
  - destruct (addSpoke scope id o c) as [[spoke | e] c'] eqn:E.
    + right. right. exists scope, id, o, spoke. auto.
    + left. revert E. outcomes; cbv zeta; intros [= _ <-]; try reflexivity.
      simpl. apply (registered_facts scope c Hacc Hreg).
  - left. reflexivity.
  - left. rewrite registerAccount_eq. repeat case_match; reflexivity.
  - left. rewrite registerRegion_eq. repeat case_match; reflexivity.
Qed.

Lemma step_topology_ok (op : Op) (c : NetworkController) :
  topology_ok c → topology_ok (step op c).
Proof.
  intros Hok.
  pose proof (step_same_config op c) as Hcfg.
  destruct (step_grows op c) as (Ha & Hr & _).
  assert (∀ R h, _hubs c !! R = Some h →
            hub_ok (step op c) R h ∧
            ∀ s, s ∈ hub_spokes h → spoke_ok (step op c) R h s) as Hold.
  { intros R h Hlook. destruct (Hok R h Hlook) as [Hh Hs]. split.
    - apply (hub_ok_mono c _ R h h); auto.
    - intros s Hin. apply (spoke_ok_mono c _ R h h); auto. }
  destruct (step_registry op c)
    as [E | [(scope & id & o & hub & _ & E) | (scope & id & o & spoke & _ & E)]].
  - intros R h. rewrite E. apply Hold.
  - destruct (addHub_success _ _ _ _ _ _ E)
      as (Hacc & Hreg & Hnone & Hinh & -> & Eh & _ & _ & Eacc & Ereg).
    intros R h. rewrite Eh.
    destruct (decide (R = scope_region scope)) as [-> | Hne].
    + rewrite lookup_insert_eq. intros [= <-]. split.
      * pose proof (tracked_registered scope c _ Hacc Hreg Hcfg Eacc Ereg) as Ht.
        unfold hub_ok. simpl.
        rewrite (default_flowLogs_same c _ Hcfg).
        exact (conj eq_refl (conj Hacc (conj Hreg (conj Hinh (conj eq_refl Ht))))).
      * simpl. intros s Hin. apply not_elem_of_nil in Hin. contradiction.
    + rewrite lookup_insert_ne by congruence. apply Hold.
  - destruct (addSpoke_success _ _ _ _ _ _ E)
      as (Hacc & Hreg & h0 & Hlook & -> & Eh & _ & _ & Eacc & Ereg).
    intros R h. rewrite Eh.
    destruct (decide (R = scope_region scope)) as [-> | Hne].
    + rewrite lookup_insert_eq. intros [= <-].
      destruct (Hok _ _ Hlook) as [Hh Hs]. split.
      * apply (hub_ok_mono c _ _ h0); auto.
      * simpl. intros s [Hin | ->%list_elem_of_singleton]%elem_of_app.
        -- apply (spoke_ok_mono c _ _ h0); auto.
        -- pose proof (tracked_registered scope c _ Hacc Hreg Hcfg Eacc Ereg) as Ht.
           unfold spoke_ok, hub_ref. simpl.
           rewrite (default_flowLogs_same c _ Hcfg).
           exact (conj eq_refl (conj Hacc (conj eq_refl (conj eq_refl Ht)))).
    + rewrite lookup_insert_ne by congruence. apply Hold.
Qed.

Lemma run_topology_ok (ops : list Op) (c : NetworkController) :
  topology_ok c → topology_ok (run ops c).
Proof.
  revert c. induction ops as [| op ops IH]; intros c Hok.
  - exact Hok.
  - rewrite run_cons. apply IH, step_topology_ok, Hok.
Qed.

Lemma new_topology_ok scope id props c :
  NetworkController_new scope id props = Ok c → topology_ok c.
Proof.
  intros (_ & Hh & _)%new_inv R h. rewrite Hh, lookup_empty. discriminate.
Qed.

(** *** The tracker, further *)

(** X1.  For a resolved region other than the controller's own, and from
    any controller, [registerRegion] returns; a second call with the same
    region returns as well and changes nothing; and [registeredRegions]
    then lists the region exactly once. *)
Theorem registerRegion_idempotent (c : NetworkController) (region : string) :
  isUnresolved region = false →
  region ≠ this_region c →
  ∃ c1, registerRegion region c = (Ok tt, c1) ∧
        registerRegion region c1 = (Ok tt, c1) ∧
        count_occ string_dec (registeredRegions c1) region = 1%nat.
Proof.
  intros Hres Hown.
  assert (∀ c' : NetworkController, region ∈ _registeredRegions c' →
            count_occ string_dec (registeredRegions c') region = 1%nat) as Hcount.
  { intros c' Hin. unfold registeredRegions. apply NoDup_count_occ'.
    - apply NoDup_ListNoDup. apply NoDup_elements.
    - apply (proj1 (list_elem_of_In _ _)).
      apply elem_of_elements. exact Hin. }
  rewrite registerRegion_eq, Hres.
  rewrite (bool_decide_eq_false_2 _ Hown).
  case_bool_decide as Hin.
  - exists c. rewrite registerRegion_eq.
    rewrite (bool_decide_eq_false_2 _ Hown), (bool_decide_eq_true_2 _ Hin).
    auto.
  - eexists. split; [reflexivity |].
    assert (region ∈ _registeredRegions
              (with_registeredRegions (λ s, s ∪ {[region]}) c)) as Hin'
      by (simpl; apply elem_of_union_r, elem_of_singleton; reflexivity).
    rewrite registerRegion_eq.
    replace (this_region (with_registeredRegions (λ s, s ∪ {[region]}) c))
      with (this_region c) by reflexivity.
    rewrite (bool_decide_eq_false_2 _ Hown), (bool_decide_eq_true_2 _ Hin').
    auto.
Qed.

(** X2.  For a token that is neither the controller's own region nor
    already registered, [registerRegion] throws [SymbolicIdentifierError]
    for a region and leaves the controller as it was. *)
Theorem registerRegion_symbolic (c : NetworkController) (region : string) :
  isUnresolved region = true →
  region ≠ this_region c →
  region ∉ registeredRegions c →
  registerRegion region c = (Throw (SymbolicIdentifierError RegionId), c).
Proof.
  intros Hres Hown Hin.
  rewrite registerRegion_eq, Hres.
  rewrite (bool_decide_eq_false_2 _ Hown).
  rewrite bool_decide_eq_false_2; [reflexivity |].
  intros H. apply Hin. unfold registeredRegions.
  apply elem_of_elements. exact H.
Qed.

(** X3.  On a controller that the constructor returned, after any
    sequence of calls, [registerAccount] and [registerRegion] throw
    exactly on tokens: a call with a token throws
    [SymbolicIdentifierError] and changes nothing, and a call with a
    resolved identifier returns, after which the identifier is the
    controller's own or is listed by the getter.  The two early returns
    of the methods never let a token through, because the controller's
    own account and region are resolved and the tracker holds no
    token. *)
Theorem register_throws_on_tokens_only (scope : Scope) (id : string)
    (props : NetworkControllerProps) (c0 : NetworkController) :
  NetworkController_new scope id props = Ok c0 →
  ∀ (ops : list Op) (x : string),
    let c := run ops c0 in
    match registerAccount x c with
    | (Ok _, c') =>
        isUnresolved x = false ∧
        (x = this_account c ∨ x ∈ registeredAccounts c')
    | (Throw e, c') =>
        e = SymbolicIdentifierError AccountId ∧ isUnresolved x = true ∧ c' = c
    end ∧
    match registerRegion x c with
    | (Ok _, c') =>
        isUnresolved x = false ∧
        (x = this_region c ∨ x ∈ registeredRegions c')
    | (Throw e, c') =>
        e = SymbolicIdentifierError RegionId ∧ isUnresolved x = true ∧ c' = c
    end.
Proof.
  intros Hnew ops x c.
  destruct (run_tracker_ok ops c0 (new_tracker_ok _ _ _ _ Hnew))
    as (_ & _ & Hra & Hrr).
  destruct (run_same_config ops c0) as (Hs & _).
  destruct (new_inv _ _ _ _ Hnew) as (Hs0 & _ & _ & _ & _ & Hoa & Hor).
  fold c in Hra, Hrr, Hs.
  assert (isUnresolved (this_account c) = false) as Hown_a
    by (unfold this_account; rewrite Hs, Hs0; exact Hoa).
  assert (isUnresolved (this_region c) = false) as Hown_r
    by (unfold this_region; rewrite Hs, Hs0; exact Hor).
  split.
  - rewrite registerAccount_eq.
    case_bool_decide as Hown; [subst x; auto |].
    case_bool_decide as Hin.
    + split; [auto |]. right. unfold registeredAccounts.
      apply elem_of_elements. exact Hin.
    + destruct (isUnresolved x) eqn:Hres; [auto |].
      split; [reflexivity |]. right. unfold registeredAccounts.
      apply elem_of_elements. simpl.
      apply elem_of_union_r, elem_of_singleton. reflexivity.
  - rewrite registerRegion_eq.
    case_bool_decide as Hown; [subst x; auto |].
    case_bool_decide as Hin.
    + split; [auto |]. right. unfold registeredRegions.
      apply elem_of_elements. exact Hin.
    + destruct (isUnresolved x) eqn:Hres; [auto |].
      split; [reflexivity |]. right. unfold registeredRegions.
      apply elem_of_elements. simpl.
      apply elem_of_union_r, elem_of_singleton. reflexivity.
Qed.

(** *** When [addHub] and [addSpoke] return, and what they leave *)

(** X4.  What the outcome of [addHub] tells about its two tests.  When it
    returns a hub, the account and the region of the scope are resolved,
    the registry held no hub under the region, and the region is not the
    name of a property that the registry object inherits.  When it throws
    [UnboundEnvironmentError], the account or the region is a token; when
    it throws [DuplicateHubError], it is for the region of the scope, the
    account and the region are resolved, and the registry held a hub
    under the region or the registry object inherits a property of that
    name; in both cases the controller is as before the call. *)
Theorem addHub_outcome (c : NetworkController) (scope : Scope) (id : string)
    (options : AddHubOptions) (r : Result FourTierNetworkHub)
    (c' : NetworkController) :
  addHub scope id options c = (r, c') →
  match r with
  | Ok hub =>
      isUnresolved (scope_account scope) = false ∧
      isUnresolved (scope_region scope) = false ∧
      _hubs c !! scope_region scope = None ∧
      inherited (scope_region scope) = false
  | Throw e =>
      (e = UnboundEnvironmentError AtHub →
       c' = c ∧
       (isUnresolved (scope_account scope) = true ∨
        isUnresolved (scope_region scope) = true)) ∧
      (∀ R, e = DuplicateHubError R →
       R = scope_region scope ∧ c' = c ∧
       isUnresolved (scope_account scope) = false ∧
       isUnresolved (scope_region scope) = false ∧
       (is_Some (_hubs c !! scope_region scope) ∨
        inherited (scope_region scope) = true))
  end.
Proof.
  destruct r as [hub | e].
  - intros E.
    destruct (addHub_success _ _ _ _ _ _ E) as (H1 & H2 & H3 & H4 & _). auto.
  - rewrite addHub_eq.
    destruct (isUnresolved (scope_account scope)) eqn:Hacc;
      [intros [= <- <-]; split; [auto | discriminate] |].
    destruct (isUnresolved (scope_region scope)) eqn:Hreg;
      [intros [= <- <-]; split; [auto | discriminate] |].
    cbn [orb]. destruct (js_in _ _) eqn:Hin; [| discriminate].
    intros [= <- <-]. split; [discriminate |].
    intros R [= <-]. repeat split.
    unfold js_in in Hin. apply orb_true_iff in Hin as [Hin | Hin]; [left | right; exact Hin].
    apply bool_decide_eq_true_1 in Hin. exact Hin.
Qed.

(** X5.  A hub returned by [addHub] is created in the scope and under the
    identifier given, with the availability zones, the maximum of zones
    and the route table of the options, and with no spoke.  After the
    call the registry holds this hub under the region of the scope and,
    under every other region, what it held before; the fields of the
    controller that are read only are unchanged. *)
Theorem addHub_registry (c : NetworkController) (scope : Scope) (id : string)
    (options : AddHubOptions) (hub : FourTierNetworkHub) (c' : NetworkController) :
  addHub scope id options c = (Ok hub, c') →
  hub_scope hub = scope ∧ hub_id hub = id ∧ hub_spokes hub = [] ∧
  hp_availabilityZones (hub_props hub) = availabilityZones options ∧
  hp_maxAzs (hub_props hub) = maxAzs options ∧
  hp_defaultTransitGatewayRouteTable (hub_props hub) =
    defaultTransitGatewayRouteTable options ∧
  (∀ R, _hubs c' !! R =
        if decide (R = scope_region scope) then Some hub else _hubs c !! R) ∧
  same_config c c'.
Proof.
  intros E.
  destruct (addHub_success _ _ _ _ _ _ E)
    as (_ & _ & _ & _ & -> & Eh & Hcfg & _).
  repeat split; try apply Hcfg.
  intros R. rewrite Eh. case_decide as HR.
  - subst R. apply lookup_insert_eq.
  - apply lookup_insert_ne. congruence.
Qed.

(** X6.  After a call of [addHub] or [addSpoke] that returns, the getters
    list what they listed before and, in addition, the account of the
    scope unless it is the controller's own account, and the region of
    the scope unless it is the controller's own region. *)
Theorem environment_is_tracked (c c' : NetworkController) (scope : Scope)
    (id : string) :
  (∃ options hub, addHub scope id options c = (Ok hub, c')) ∨
  (∃ options spoke, addSpoke scope id options c = (Ok spoke, c')) →
  (∀ a, a ∈ registeredAccounts c' ↔
        a ∈ registeredAccounts c ∨
        (a = scope_account scope ∧ scope_account scope ≠ this_account c)) ∧
  (∀ r, r ∈ registeredRegions c' ↔
        r ∈ registeredRegions c ∨
        (r = scope_region scope ∧ scope_region scope ≠ this_region c)).
Proof.
  intros H.
  assert (isUnresolved (scope_account scope) = false ∧
          isUnresolved (scope_region scope) = false ∧
          _registeredAccounts c' = _registeredAccounts (registered scope c) ∧
          _registeredRegions c' = _registeredRegions (registered scope c))
    as (Ha & Hr & Eacc & Ereg).
  { destruct H as [(o & hub & E) | (o & spoke & E)].
    - destruct (addHub_success _ _ _ _ _ _ E)
        as (H1 & H2 & _ & _ & _ & _ & _ & _ & H3 & H4). auto.
    - destruct (addSpoke_success _ _ _ _ _ _ E)
        as (H1 & H2 & h & _ & _ & _ & _ & _ & H3 & H4). auto. }
  destruct (registered_tracker scope c Ha Hr) as [Hacc Hreg].
  unfold registeredAccounts, registeredRegions.
  split; intros x; rewrite !elem_of_elements.
  - rewrite Eacc. apply Hacc.
  - rewrite Ereg. apply Hreg.
Qed.

(** X7.  [addSpoke] returns a spoke only when the account and the region
    of the scope are resolved and the registry holds a hub under the
    region: a property that the registry object inherits passes the test
    on [undefined] but never yields a spoke. *)
Theorem addSpoke_returns_only_if (c : NetworkController) (scope : Scope) (id : string)
    (options : AddNetworkOptions) (spoke : FourTierNetworkSpoke)
    (c' : NetworkController) :
  addSpoke scope id options c = (Ok spoke, c') →
  isUnresolved (scope_account scope) = false ∧
  isUnresolved (scope_region scope) = false ∧
  ∃ hub, _hubs c !! scope_region scope = Some hub ∧
         js_get (scope_region scope) (_hubs c) = JsOwn hub.
Proof.
  intros E.
  destruct (addSpoke_success _ _ _ _ _ _ E) as (H1 & H2 & h & H3 & _).
  repeat split; try assumption.
  exists h. split; [exact H3 | apply js_get_own, H3].
Qed.

(** X8.  The two errors that [addSpoke] throws itself.  When it throws
    [UnboundEnvironmentError], the account or the region of the scope is
    a token.  When it throws [MissingHubError], it is for the region of
    the scope, the account and the region are resolved, the registry
    holds nothing under the region and the registry object inherits
    nothing under it.  In both cases the controller is as before the
    call. *)
Theorem addSpoke_own_errors (c : NetworkController) (scope : Scope) (id : string)
    (options : AddNetworkOptions) (e : Error) (c' : NetworkController) :
  addSpoke scope id options c = (Throw e, c') →
  (e = UnboundEnvironmentError AtSpoke →
   c' = c ∧
   (isUnresolved (scope_account scope) = true ∨
    isUnresolved (scope_region scope) = true)) ∧
  (∀ R, e = MissingHubError R →
   R = scope_region scope ∧ c' = c ∧
   isUnresolved (scope_account scope) = false ∧
   isUnresolved (scope_region scope) = false ∧
   _hubs c !! scope_region scope = None ∧
   inherited (scope_region scope) = false).
Proof.
  rewrite addSpoke_eq.
  destruct (isUnresolved (scope_account scope)) eqn:Hacc;
    [intros [= <- <-]; split; [auto | discriminate] |].
  destruct (isUnresolved (scope_region scope)) eqn:Hreg;
    [intros [= <- <-]; split; [auto | discriminate] |].
  cbn [orb]. cbv zeta.
  destruct (js_get _ _) as [| h | k] eqn:Hget.
  - intros [= <- <-]. apply js_get_undefined in Hget as [H1 H2].
    split; [discriminate |]. intros R [= <-]. auto 10.
  - simpl. discriminate.
  - intros [= <- <-]. split; discriminate.
Qed.

(** X9.  A call of [addSpoke] that returns has made exactly one request
    to the address manager, for the scope of the spoke, under the key made
    of the identifier of the spoke, a dash and the address of the node of
    the scope, and with [options.netmask] when the caller gave one and
    the controller's [defaultNetmask] otherwise; the spoke holds the
    provider that answers this request. *)
Theorem addSpoke_netmask (c : NetworkController) (scope : Scope) (id : string)
    (options : AddNetworkOptions) (spoke : FourTierNetworkSpoke)
    (c' : NetworkController) :
  addSpoke scope id options c = (Ok spoke, c') →
  let request :=
    {| req_scope := scope; req_id := id +:+ "-" +:+ scope_addr scope;
       req_netmask :=
         match netmask options with
         | Some m => m
         | None => defaultNetmask c
         end |} in
  ledger (addressManager c') = (ledger (addressManager c) ++ [Allocation request])%list ∧
  sp_cidr (spoke_props spoke) = request.
Proof.
  intros E.
  destruct (addSpoke_success _ _ _ _ _ _ E)
    as (_ & _ & h & _ & -> & _ & _ & El & _).
  simpl. split; [exact El | reflexivity].
Qed.

(** X10.  A spoke returned by [addSpoke] is created in the scope and
    under the identifier given, with the availability zones and the
    maximum of zones of the options.  After the call the registry holds,
    under the region of the scope, the hub it held there with the spoke
    as the last of its spokes, and under every other region what it held
    before; the fields of the controller that are read only are
    unchanged. *)
Theorem addSpoke_registry (c : NetworkController) (scope : Scope) (id : string)
    (options : AddNetworkOptions) (spoke : FourTierNetworkSpoke)
    (c' : NetworkController) :
  addSpoke scope id options c = (Ok spoke, c') →
  spoke_scope spoke = scope ∧ spoke_id spoke = id ∧
  sp_availabilityZones (spoke_props spoke) = availabilityZones options ∧
  sp_maxAzs (spoke_props spoke) = maxAzs options ∧
  (∃ hub hub',
     _hubs c !! scope_region scope = Some hub ∧
     _hubs c' !! scope_region scope = Some hub' ∧
     hub_scope hub' = hub_scope hub ∧ hub_id hub' = hub_id hub ∧
     hub_props hub' = hub_props hub ∧
     hub_spokes hub' = (hub_spokes hub ++ [spoke])%list) ∧
  (∀ R, R ≠ scope_region scope → _hubs c' !! R = _hubs c !! R) ∧
  same_config c c'.
Proof.
  intros E.
  destruct (addSpoke_success _ _ _ _ _ _ E)
    as (_ & _ & h & Hlook & Hspoke & Eh & Hcfg & _).
  repeat split; try (rewrite Hspoke; reflexivity); try apply Hcfg.
  - exists h. eexists. split; [exact Hlook |].
    rewrite Eh, lookup_insert_eq. repeat split.
  - intros R HR. rewrite Eh. apply lookup_insert_ne. congruence.
Qed.

(** X11.  Once [addHub] returned a hub for the scope of a region, and
    whatever calls follow, [addSpoke] for a scope of that region whose
    account is resolved passes its two tests: it throws neither
    [UnboundEnvironmentError] nor [MissingHubError]; and a spoke that it
    returns is created in that scope and refers back to that hub. *)
Theorem addSpoke_after_addHub (c : NetworkController) (scope : Scope) (id : string)
    (options : AddHubOptions) (hub : FourTierNetworkHub) (c1 : NetworkController)
    (ops : list Op) (scope' : Scope) (id' : string) (options' : AddNetworkOptions) :
  addHub scope id options c = (Ok hub, c1) →
  scope_region scope' = scope_region scope →
  isUnresolved (scope_account scope') = false →
  let r := addSpoke scope' id' options' (run ops c1) in
  fst r ≠ Throw (UnboundEnvironmentError AtSpoke) ∧
  fst r ≠ Throw (MissingHubError (scope_region scope')) ∧
  ∀ spoke, fst r = Ok spoke →
    spoke_scope spoke = scope' ∧ spoke_hub spoke = hub_ref hub.
Proof.
  intros E HR Hacc' r. subst r.
  destruct (addHub_success _ _ _ _ _ _ E)
    as (_ & Hreg & _ & _ & _ & Eh & _).
  assert (_hubs c1 !! scope_region scope = Some hub) as Hc1
    by (rewrite Eh; apply lookup_insert_eq).
  destruct (run_hubs_kept ops c1 _ _ Hc1) as (hub' & Hlook & Href & _).
  rewrite addSpoke_eq, HR, Hacc', Hreg. cbn [orb].
  rewrite (proj2 (js_get_own _ _ _) Hlook). cbv zeta. simpl.
  split; [discriminate |]. split; [discriminate |].
  intros spoke [= <-]. simpl. auto.
Qed.

(** *** What a sequence of calls keeps *)

(** X12.  No call removes anything: after any sequence of calls, the
    getters list at least what they listed, the ledger of the address
    manager starts with what it held, and every region that held a hub
    holds a hub of the same scope, identifier and properties. *)
Theorem nothing_is_removed (ops : list Op) (c : NetworkController) :
  (∀ a, a ∈ registeredAccounts c → a ∈ registeredAccounts (run ops c)) ∧
  (∀ r, r ∈ registeredRegions c → r ∈ registeredRegions (run ops c)) ∧
  ledger (addressManager c) `prefix_of` ledger (addressManager (run ops c)) ∧
  (∀ R hub, _hubs c !! R = Some hub →
     ∃ hub', _hubs (run ops c) !! R = Some hub' ∧
             hub_scope hub' = hub_scope hub ∧ hub_id hub' = hub_id hub ∧
             hub_props hub' = hub_props hub).
Proof.
  destruct (run_grows ops c) as (Ha & Hr & l & El & _).
  unfold registeredAccounts, registeredRegions.
  repeat split.
  - intros a. rewrite !elem_of_elements. apply Ha.
  - intros r. rewrite !elem_of_elements. apply Hr.
  - exists l. exact El.
  - intros R hub Hlook.
    destruct (run_hubs_kept ops c R hub Hlook) as (hub' & H1 & H2 & H3).
    exists hub'. unfold hub_ref in H2. injection H2 as H2 H2'. auto.
Qed.


(** X14.  On a controller that the constructor returned, after any
    sequence of calls, every hub that the registry holds under a region
    [R] was created in a scope of region [R] whose account is resolved;
    [R] is resolved and is not the name of a property that the registry
    object inherits; the flow logs of the hub are the default rule of
    the controller; and the account and the region of the scope of the
    hub are the controller's own or are listed by the getters. *)
Theorem registered_hubs_sound (scope0 : Scope) (id0 : string)
    (props : NetworkControllerProps) (c0 : NetworkController) :
  NetworkController_new scope0 id0 props = Ok c0 →
  ∀ (ops : list Op) (R : string) (hub : FourTierNetworkHub),
    let c := run ops c0 in
    _hubs c !! R = Some hub →
    scope_region (hub_scope hub) = R ∧
    isUnresolved (scope_account (hub_scope hub)) = false ∧
    isUnresolved R = false ∧
    inherited R = false ∧
    hp_flowLogs (hub_props hub) = default_flowLogs c0 ∧
    (scope_account (hub_scope hub) = scope_account scope0 ∨
     scope_account (hub_scope hub) ∈ registeredAccounts c) ∧
    (R = scope_region scope0 ∨ R ∈ registeredRegions c).
Proof.
  intros Hnew ops R hub c Hlook.
  destruct (run_topology_ok ops c0 (new_topology_ok _ _ _ _ Hnew) R hub Hlook)
    as [(H1 & H2 & H3 & H4 & H5 & H6 & H7) _].
  pose proof (run_same_config ops c0) as Hcfg.
  destruct (new_inv _ _ _ _ Hnew) as (Hs0 & _).
  fold c in H5, H6, H7, Hcfg.
  rewrite (default_flowLogs_same c0 c Hcfg) in H5.
  unfold this_account, this_region in H6, H7.
  destruct Hcfg as (Hs & _). rewrite Hs, Hs0 in H6, H7. rewrite H1 in H7.
  auto 10.
Qed.

(** X15.  On a controller that the constructor returned, after any
    sequence of calls, every spoke attached to a hub that the registry
    holds under a region [R] was created in a scope of region [R] whose
    account is resolved; it refers back to this hub; its flow logs are
    the default rule of the controller; and the account of its scope is
    the controller's own or is listed by the getter.  (The hub attaches
    the spokes that it creates, as [FourTierNetworkHub_addSpoke] has
    it.) *)
Theorem attached_spokes_sound (scope0 : Scope) (id0 : string)
    (props : NetworkControllerProps) (c0 : NetworkController) :
  NetworkController_new scope0 id0 props = Ok c0 →
  ∀ (ops : list Op) (R : string) (hub : FourTierNetworkHub)
    (spoke : FourTierNetworkSpoke),
    let c := run ops c0 in
    _hubs c !! R = Some hub →
    spoke ∈ hub_spokes hub →
    scope_region (spoke_scope spoke) = R ∧
    isUnresolved (scope_account (spoke_scope spoke)) = false ∧
    spoke_hub spoke = hub_ref hub ∧
    sp_flowLogs (spoke_props spoke) = default_flowLogs c0 ∧
    (scope_account (spoke_scope spoke) = scope_account scope0 ∨
     scope_account (spoke_scope spoke) ∈ registeredAccounts c).
Proof.
  intros Hnew ops R hub spoke c Hlook Hin.
  destruct (run_topology_ok ops c0 (new_topology_ok _ _ _ _ Hnew) R hub Hlook)
    as [_ Hs].
  destruct (Hs spoke Hin) as (H1 & H2 & H3 & H4 & H5 & _).
  pose proof (run_same_config ops c0) as Hcfg.
  destruct (new_inv _ _ _ _ Hnew) as (Hs0 & _).
  fold c in H4, H5, Hcfg.
  rewrite (default_flowLogs_same c0 c Hcfg) in H4.
  unfold this_account in H5.
  destruct Hcfg as (Hsc & _). rewrite Hsc, Hs0 in H5.
  auto 10.
Qed.

(** *** The keys of the allocation requests *)

Lemma length_append (a b : string) :
  String.length (a +:+ b) = (String.length a + String.length b)%nat.
Proof.
  induction a as [| x a IH]; [reflexivity |].
  change (S (String.length (a +:+ b)) = S (String.length a + String.length b)).
  rewrite IH. reflexivity.
Qed.

Lemma append_inj_l (a b s : string) : a +:+ s = b +:+ s → a = b.
Proof.
  revert b. induction a as [| x a IH]; intros [| y b] H.
  - reflexivity.
  - apply (f_equal String.length) in H.
    rewrite !length_append in H. simpl in H. lia.
  - apply (f_equal String.length) in H.
    rewrite !length_append in H. simpl in H. lia.
  - change (String x (a +:+ s) = String y (b +:+ s)) in H.
    injection H as -> H. f_equal. apply IH, H.
Qed.

(** X16.  The key under which [addSpoke] requests the address range of a
    spoke is never the identifier of the spoke itself, so that a hub and
    a spoke of the same scope and identifier make different requests; and
    in one scope, spokes of different identifiers have different keys. *)
Theorem spoke_keys_differ (c : NetworkController) (scope : Scope) (id : string)
    (options : AddNetworkOptions) (spoke : FourTierNetworkSpoke)
    (c' : NetworkController) :
  addSpoke scope id options c = (Ok spoke, c') →
  req_id (sp_cidr (spoke_props spoke)) ≠ id ∧
  (∀ (c1 : NetworkController) (options1 : AddHubOptions) hub c1',
     addHub scope id options1 c1 = (Ok hub, c1') →
     hp_cidr (hub_props hub) ≠ sp_cidr (spoke_props spoke)) ∧
  (∀ (c2 : NetworkController) (id2 : string) (options2 : AddNetworkOptions)
     spoke2 c2',
     addSpoke scope id2 options2 c2 = (Ok spoke2, c2') →
     req_id (sp_cidr (spoke_props spoke2)) = req_id (sp_cidr (spoke_props spoke)) →
     id2 = id).
Proof.
  intros E.
  destruct (addSpoke_success _ _ _ _ _ _ E)
    as (_ & _ & h & _ & -> & _).
  simpl.
  assert (id +:+ "-" +:+ scope_addr scope ≠ id) as Hne.
  { intros H. apply (f_equal String.length) in H.
    rewrite length_append in H. simpl in H. lia. }
  split; [exact Hne |]. split.
  - intros c1 o1 hub c1' E1.
    destruct (addHub_success _ _ _ _ _ _ E1) as (_ & _ & _ & _ & -> & _).
    simpl. unfold hub_request, spoke_request. intros [= H _]. auto.
  - intros c2 id2 o2 spoke2 c2' E2.
    destruct (addSpoke_success _ _ _ _ _ _ E2)
      as (_ & _ & h2 & _ & -> & _).
    simpl. apply append_inj_l.
Qed.

(** X17.  The key of a spoke can be the key of a hub.  In one scope, a
    hub whose identifier is the identifier of a spoke followed by a dash
    and the address of the node of the scope makes, for the same netmask,
    the very request that the spoke makes. *)
Theorem hub_key_can_equal_spoke_key (scope : Scope) (id : string)
    (c1 : NetworkController) (options1 : AddHubOptions)
    (hub : FourTierNetworkHub) (c1' : NetworkController)
    (c2 : NetworkController) (options2 : AddNetworkOptions)
    (spoke : FourTierNetworkSpoke) (c2' : NetworkController) :
  addHub scope (id +:+ "-" +:+ scope_addr scope) options1 c1 = (Ok hub, c1') →
  addSpoke scope id options2 c2 = (Ok spoke, c2') →
  netmask options1 ?? defaultNetmask c1 = netmask options2 ?? defaultNetmask c2 →
  hp_cidr (hub_props hub) = sp_cidr (spoke_props spoke).
Proof.
  intros E1 E2 Hmask.
  destruct (addHub_success _ _ _ _ _ _ E1) as (_ & _ & _ & _ & -> & _).
  destruct (addSpoke_success _ _ _ _ _ _ E2) as (_ & _ & h & _ & -> & _).
  simpl. unfold hub_request, spoke_request. rewrite Hmask. reflexivity.
Qed.

(** *** The controller that the constructor returns *)

Lemma lower_ascii_not_upper (a : ascii) : is_upper (lower_ascii a) = false.
Proof.
  destruct a as [[] [] [] [] [] [] [] []]; reflexivity.
Qed.

Lemma toLowerCase_no_upper (s : string) :
  string_forall (fun a => negb (is_upper a)) (toLowerCase s) = true.
Proof.
  induction s as [| a s IH]; simpl; [reflexivity |].
  rewrite lower_ascii_not_upper, IH. reflexivity.
Qed.

(** X18.  A controller that the constructor returns has the netmask and
    the log format of the properties, 16 and [V5] when they give none; it
    holds no hub, lists no account and no region, and its address manager
    has received no request.  Its log bucket is the bucket of the
    properties when they give one; otherwise it is a bucket that the
    controller creates with its own log format, under a name that is the
    unique identifier of the controller in lower case and so has no upper
    case letter. *)
Theorem constructor_result (scope : Scope) (id : string)
    (props : NetworkControllerProps) (c : NetworkController) :
  NetworkController_new scope id props = Ok c →
  defaultNetmask c = (props_defaultNetmask props ?? 16) ∧
  flowLogFormat c = (props_flowLogFormat props ?? V5) ∧
  _hubs c = ∅ ∧
  registeredAccounts c = [] ∧
  registeredRegions c = [] ∧
  ledger (addressManager c) = [] ∧
  match props_flowLogBucket props with
  | Some bucket => flowLogBucket c = SuppliedBucket bucket
  | None =>
      ∃ bucketName,
        flowLogBucket c = FlowLogsBucket "flow-log-bucket" bucketName (flowLogFormat c) ∧
        bucketName = toLowerCase (Names_uniqueId scope id) ∧
        string_forall (fun a => negb (is_upper a)) bucketName = true
  end.
Proof.
  unfold NetworkController_new.
  destruct (_ || _); [discriminate |]. intros [= <-].
  unfold registeredAccounts, registeredRegions. simpl.
  rewrite elements_empty.
  repeat split.
  destruct (props_flowLogBucket props); [reflexivity |].
  eexists. repeat split. apply toLowerCase_no_upper.
Qed.

End Properties.

(** ** Properties of the detector features *)

Section FeatureProperties.

Context {ds : DataSources}.

(** X19.  The six factories are alike.  Each builds a feature whose name
    and data source do not depend on the options and which is enabled
    unless the options say otherwise: [enabled] is [options.enabled] when
    the caller gave it and [true] when not.  The names of the six
    features are pairwise different, so that a feature is recognised by
    its name. *)
Theorem Feature_names_distinct :
  Forall (fun f : EksRuntimeMonitoringOptions → IFeature =>
            ∀ o, feature_name (f o) = feature_name (f no_eks_options) ∧
                 feature_dataSource (f o) = feature_dataSource (f no_eks_options) ∧
                 feature_enabled (f o) = (opt_enabled o ?? true))
         Feature_factories ∧
  ∀ o, NoDup (map (fun f : EksRuntimeMonitoringOptions → IFeature =>
                     feature_name (f o)) Feature_factories).
Proof.
  split.
  - unfold Feature_factories.
    repeat first [apply List.Forall_nil | apply List.Forall_cons];
      intros o; repeat split.
  - intros o. simpl.
    refine (bool_decide_eq_true_1 _ _). vm_compute. reflexivity.
Qed.

(** X20.  Which features carry what.  A data source comes with exactly
    the features for malware protection, audit logs and S3 data events;
    settings come with runtime monitoring only, as the single setting
    [EKS_ADDON_MANAGEMENT].  This setting follows [addonManagement] alone
    and is enabled when the caller gave none, also for a feature that the
    caller disabled. *)
Theorem Feature_contents :
  Forall (fun f : EksRuntimeMonitoringOptions → IFeature =>
            ∀ o,
              (is_Some (feature_dataSource (f o)) ↔
               feature_name (f o) ∈
                 ["EBS_MALWARE_PROTECTION"; "EKS_AUDIT_LOGS"; "S3_DATA_EVENTS"]) ∧
              (is_Some (feature_settings (f o)) ↔
               feature_name (f o) = "EKS_RUNTIME_MONITORING"))
         Feature_factories ∧
  ∀ o : EksRuntimeMonitoringOptions,
    feature_settings (eksRuntimeMonitoring o) =
      Some [ {| setting_enabled :=
                  match addonManagement o with
                  | Some b => b
                  | None => true
                  end;
                setting_name := "EKS_ADDON_MANAGEMENT" |} ].
Proof.
  split; [| reflexivity].
  unfold Feature_factories.
  repeat first [apply List.Forall_nil | apply List.Forall_cons];
    intros o; simpl; (split; split; intros H);
    try (eexists; reflexivity);
    try reflexivity;
    try discriminate H;
    try (destruct H as [x H]; discriminate H);
    try (exfalso; revert H;
         refine (bool_decide_eq_false_1 _ _); vm_compute; reflexivity);
    try (refine (bool_decide_eq_true_1 _ _); vm_compute; reflexivity).
Qed.

End FeatureProperties.

(** ** The concrete topology *)

Section Claims.

#[local] Existing Instance ex_externals.

Lemma ex_ctl_new :
  NetworkController_new ex_home "Controller" ex_props
    = Ok ex_ctl.
Proof. reflexivity. Qed.

Example ex_addHub :
  addHub ex_east "hub1" no_hub_options ex_ctl = (Ok ex_hub1, ex_ctl1).
Proof. vm_compute. reflexivity. Qed.

Example ex_ctl1_tracker :
  registeredAccounts ex_ctl1 = ["111111111111"] ∧
  registeredRegions ex_ctl1 = ["us-east-1"] ∧
  _hubs ex_ctl1 !! "us-east-1" = Some ex_hub1.
Proof. vm_compute. auto. Qed.

Example ex_addSpoke :
  addSpoke ex_east "spoke1" no_network_options ex_ctl1
    = (Ok ex_spoke1, ex_ctl2).
Proof. vm_compute. reflexivity. Qed.

(** A spoke for a region without a hub. *)
Example ex_addSpoke_missing :
  addSpoke ex_eu "spoke2" no_network_options ex_ctl2
    = (Throw (MissingHubError "eu-west-1"), ex_ctl2).
Proof. vm_compute. reflexivity. Qed.

(** ** The claims at the concrete topology *)

(** C1 as first stated does not hold: after [hub1] was added for
    [us-east-1], [addHub] with a scope of the same region whose account
    is left open throws [UnboundEnvironmentError], not
    [DuplicateHubError]. *)
Lemma addHub_again_open_account :
  addHub ex_east "hub1" no_hub_options ex_ctl = (Ok ex_hub1, ex_ctl1) ∧
  scope_region ex_east_open = scope_region ex_east ∧
  addHub ex_east_open "hub2" no_hub_options ex_ctl1
    = (Throw (UnboundEnvironmentError AtHub), ex_ctl1) ∧
  fst (addHub ex_east_open "hub2" no_hub_options ex_ctl1)
    ≠ Throw (DuplicateHubError "us-east-1").
Proof.
  split; [exact ex_addHub |]. split; [reflexivity |].
  assert (addHub ex_east_open "hub2" no_hub_options ex_ctl1
            = (Throw (UnboundEnvironmentError AtHub), ex_ctl1)) as E
    by (vm_compute; reflexivity).
  split; [exact E |]. rewrite E. discriminate.
Qed.

(** C1, as amended, at [hub1] of [us-east-1]: once [spoke1] was attached
    to it, a second hub for the region is refused, with
    [DuplicateHubError] for the scope [ex_east] and with
    [UnboundEnvironmentError] for the scope whose account is left open,
    and the refused call leaves the controller as it was. *)
Lemma addHub_once_witness :
  addHub ex_east "hub1" no_hub_options ex_ctl = (Ok ex_hub1, ex_ctl1) ∧
  scope_region ex_east = scope_region ex_east ∧
  scope_region ex_east_open = scope_region ex_east ∧
  _hubs ex_ctl1 !! "us-east-1" = Some ex_hub1 ∧
  (∃ hub', _hubs (run [OpAddSpoke ex_east "spoke1" no_network_options] ex_ctl1)
             !! "us-east-1" = Some hub' ∧
           hub_ref hub' = hub_ref ex_hub1 ∧
           hub_props hub' = hub_props ex_hub1) ∧
  addHub ex_east "hub2" no_hub_options
    (run [OpAddSpoke ex_east "spoke1" no_network_options] ex_ctl1) =
    (Throw (DuplicateHubError "us-east-1"),
     run [OpAddSpoke ex_east "spoke1" no_network_options] ex_ctl1) ∧
  addHub ex_east_open "hub2" no_hub_options
    (run [OpAddSpoke ex_east "spoke1" no_network_options] ex_ctl1) =
    (Throw (UnboundEnvironmentError AtHub),
     run [OpAddSpoke ex_east "spoke1" no_network_options] ex_ctl1) ∧
  addHub ex_east "hub2" no_hub_options ex_ctl1 =
    (Throw (DuplicateHubError "us-east-1"), ex_ctl1) ∧
  (ex_ctl1 = ex_ctl1 ∧ _hubs ex_ctl1 = _hubs ex_ctl1).
Proof.
  assert (addHub ex_east "hub1" no_hub_options ex_ctl
            = (Ok ex_hub1, ex_ctl1)) as H by (vm_compute; reflexivity).
  assert (scope_region ex_east = scope_region ex_east) as H1 by reflexivity.
  assert (scope_region ex_east_open = scope_region ex_east) as H2 by reflexivity.
  assert (addHub ex_east "hub2" no_hub_options ex_ctl1 =
            (Throw (DuplicateHubError "us-east-1"), ex_ctl1)) as H3
    by (vm_compute; reflexivity).
  pose proof (addHub_once ex_ctl ex_east "hub1" no_hub_options
                (Ok ex_hub1) ex_ctl1 H) as [Hheld Hnext].
  pose proof (Hnext [OpAddSpoke ex_east "spoke1" no_network_options]
                ex_east "hub2" no_hub_options H1) as [Hkept Hdup].
  pose proof (Hnext [OpAddSpoke ex_east "spoke1" no_network_options]
                ex_east_open "hub2" no_hub_options H2) as [_ Hopen].
  pose proof (addHub_once ex_ctl1 ex_east "hub2" no_hub_options
                (Throw (DuplicateHubError "us-east-1")) ex_ctl1 H3
                (or_intror eq_refl)) as Hsame.
  exact (conj H (conj H1 (conj H2 (conj Hheld (conj Hkept
          (conj Hdup (conj Hopen (conj H3 Hsame)))))))).
Defined.

(** C2 as first stated does not hold, in two ways.  The fresh controller
    holds no hub; yet for the region [toString], [addSpoke] throws a
    [TypeError] after it registered the account and the region and
    requested an address range; and for [eu-west-1] with the account left
    open it throws [UnboundEnvironmentError]. *)
Lemma addSpoke_without_hub_other_errors :
  _hubs ex_ctl = ∅ ∧
  (let (r, c') := addSpoke ex_toString "spoke1" no_network_options ex_ctl in
   r = Throw (TypeError "hub.addSpoke") ∧
   r ≠ Throw (MissingHubError "toString") ∧
   ledger (addressManager c') =
     [Allocation {| req_scope := ex_toString; req_id := "spoke1-c8ff";
                    req_netmask := 16 |}] ∧
   registeredAccounts c' = ["111111111111"] ∧
   registeredRegions c' = ["toString"]) ∧
  fst (addSpoke ex_eu_open "spoke2" no_network_options ex_ctl)
    = Throw (UnboundEnvironmentError AtSpoke) ∧
  fst (addSpoke ex_eu_open "spoke2" no_network_options ex_ctl)
    ≠ Throw (MissingHubError "eu-west-1").
Proof.
  split; [reflexivity |]. split.
  - vm_compute. repeat split. discriminate.
  - vm_compute. split; [reflexivity | discriminate].
Qed.

(** C2, as amended, at a spoke for [eu-west-1] on the fresh controller. *)
Lemma addSpoke_without_hub_witness :
  _hubs ex_ctl !! scope_region ex_eu = None ∧
  inherited (scope_region ex_eu) = false ∧
  addSpoke ex_eu "spoke2" no_network_options ex_ctl =
    (Throw (MissingHubError "eu-west-1"), ex_ctl) ∧
  let c' := snd (addSpoke ex_eu "spoke2" no_network_options ex_ctl) in
  ledger (addressManager c') = ledger (addressManager ex_ctl) ∧
  registeredAccounts c' = registeredAccounts ex_ctl ∧
  registeredRegions c' = registeredRegions ex_ctl ∧
  _hubs c' = _hubs ex_ctl.
Proof.
  assert (_hubs ex_ctl !! scope_region ex_eu = None) as H1
    by (vm_compute; reflexivity).
  assert (inherited (scope_region ex_eu) = false) as H2
    by (vm_compute; reflexivity).
  split; [exact H1 |]. split; [exact H2 |].
  exact (addSpoke_without_hub ex_ctl ex_eu "spoke2"
           no_network_options H1 H2).
Defined.

(** C10 at the region [toString] on the fresh controller. *)
Lemma inherited_region_is_taken_witness :
  scope_region ex_toString ∈ Object_prototype_keys ∧
  _hubs ex_ctl !! scope_region ex_toString = None ∧
  is_token (scope_account ex_toString) = false ∧
  is_token (scope_region ex_toString) = false ∧
  (∀ options : AddHubOptions,
     addHub ex_toString "hub1" options ex_ctl =
       (Throw (DuplicateHubError "toString"), ex_ctl)) ∧
  (∀ options : AddNetworkOptions,
     let (r, c') := addSpoke ex_toString "spoke1" options ex_ctl in
     r = Throw (TypeError "hub.addSpoke") ∧
     r ≠ Throw (MissingHubError "toString") ∧
     ledger (addressManager c') =
       (ledger (addressManager ex_ctl) ++
          [Allocation (spoke_request ex_toString "spoke1" options ex_ctl)])%list).
Proof.
  assert (scope_region ex_toString ∈ Object_prototype_keys) as H1
    by (refine (bool_decide_eq_true_1 _ _); vm_compute; reflexivity).
  assert (_hubs ex_ctl !! scope_region ex_toString = None) as H2
    by (vm_compute; reflexivity).
  assert (is_token (scope_account ex_toString) = false) as H3
    by (vm_compute; reflexivity).
  assert (is_token (scope_region ex_toString) = false) as H4
    by (vm_compute; reflexivity).
  repeat (split; [assumption |]).
  split.
  - exact (proj1 (inherited_region_is_taken ex_ctl ex_toString
                    "hub1" H1 H2 H3 H4)).
  - exact (proj2 (inherited_region_is_taken ex_ctl ex_toString
                    "spoke1" H1 H2 H3 H4)).
Defined.

(** C3 for the controller of [ex_home]. *)
Lemma tracker_invariant_witness :
  NetworkController_new ex_home "Controller" ex_props
    = Ok ex_ctl ∧
  ∀ ops : list Op,
    let c := run ops ex_ctl in
    this_account c = "000000000000" ∧
    this_region c = "us-west-2" ∧
    (this_account c ∉ registeredAccounts c) ∧
    (this_region c ∉ registeredRegions c) ∧
    (∀ a, a ∈ registeredAccounts c → is_token a = false) ∧
    (∀ r, r ∈ registeredRegions c → is_token r = false).
Proof.
  assert (NetworkController_new ex_home
            "Controller" ex_props = Ok ex_ctl) as H by reflexivity.
  split; [exact H |].
  exact (tracker_invariant ex_home
           "Controller" ex_props ex_ctl H).
Defined.

(** C4 at the account of [ex_east] on the fresh controller. *)
Lemma registerAccount_idempotent_witness :
  is_token "111111111111" = false ∧
  "111111111111" ≠ this_account ex_ctl ∧
  ∃ c1, registerAccount "111111111111" ex_ctl = (Ok tt, c1) ∧
        registerAccount "111111111111" c1 = (Ok tt, c1) ∧
        count_occ string_dec (registeredAccounts c1) "111111111111" = 1%nat.
Proof.
  assert (is_token "111111111111" = false) as H1 by (vm_compute; reflexivity).
  assert ("111111111111" ≠ this_account ex_ctl) as H2
    by (vm_compute; discriminate).
  split; [exact H1 |]. split; [exact H2 |].
  exact (registerAccount_idempotent ex_ctl "111111111111" H1 H2).
Defined.

(** C5 at the account token, once [hub1] was added. *)
Lemma registerAccount_symbolic_witness :
  is_token "${Token[AWS.AccountId.4]}" = true ∧
  "${Token[AWS.AccountId.4]}" ≠ this_account ex_ctl1 ∧
  ("${Token[AWS.AccountId.4]}" ∉ registeredAccounts ex_ctl1) ∧
  registerAccount "${Token[AWS.AccountId.4]}" ex_ctl1 =
    (Throw (SymbolicIdentifierError AccountId), ex_ctl1) ∧
  registeredAccounts
    (snd (registerAccount "${Token[AWS.AccountId.4]}" ex_ctl1)) =
    registeredAccounts ex_ctl1.
Proof.
  assert (is_token "${Token[AWS.AccountId.4]}" = true) as H1
    by (vm_compute; reflexivity).
  assert ("${Token[AWS.AccountId.4]}" ≠ this_account ex_ctl1) as H2
    by (vm_compute; discriminate).
  assert ("${Token[AWS.AccountId.4]}" ∉ registeredAccounts ex_ctl1) as H3
    by (refine (bool_decide_eq_false_1 _ _); vm_compute; reflexivity).
  split; [exact H1 |]. split; [exact H2 |]. split; [exact H3 |].
  exact (registerAccount_symbolic ex_ctl1
           "${Token[AWS.AccountId.4]}" H1 H2 H3).
Defined.

(** C6 at a stack with no environment, at a stack with a region only,
    and at [ex_home]. *)
Lemma constructor_environment_witness :
  NetworkController_new ex_open "Controller" ex_props
    = Throw (UnboundEnvironmentError AtController) ∧
  NetworkController_new ex_east_open "Controller" ex_props
    = Throw (UnboundEnvironmentError AtController) ∧
  (ctrl_scope ex_ctl = ex_home ∧
   is_token (this_account ex_ctl) = false ∧
   is_token (this_region ex_ctl) = false).
Proof.
  split; [| split].
  - apply (proj1 (constructor_environment
                    ex_open "Controller" ex_props)).
    left. vm_compute. reflexivity.
  - apply (proj1 (constructor_environment
                    ex_east_open "Controller" ex_props)).
    left. vm_compute. reflexivity.
  - exact (proj2 (constructor_environment
                    ex_home "Controller" ex_props)).
Defined.

(** C7 at a hub for [eu-west-1] with a netmask of 24. *)
Lemma addHub_netmask_witness :
  addHub ex_eu "hub2" ex_options24 ex_ctl1 =
    (Ok ex_hub2, snd (addHub ex_eu "hub2" ex_options24 ex_ctl1)) ∧
  ledger (addressManager
            (snd (addHub ex_eu "hub2" ex_options24 ex_ctl1))) =
    (ledger (addressManager ex_ctl1) ++
       [Allocation {| req_scope := ex_eu; req_id := "hub2"; req_netmask := 24 |}])%list ∧
  hp_cidr (hub_props ex_hub2) =
    {| req_scope := ex_eu; req_id := "hub2"; req_netmask := 24 |}.
Proof.
  assert (addHub ex_eu "hub2" ex_options24 ex_ctl1 =
            (Ok ex_hub2, snd (addHub ex_eu "hub2" ex_options24 ex_ctl1)))
    as H by (vm_compute; reflexivity).
  split; [exact H |].
  exact (addHub_netmask ex_ctl1 ex_eu "hub2" ex_options24
           ex_hub2 _ H).
Defined.

(** C8 for the controller of [ex_home], at [hub1] and at [spoke1]. *)
Lemma default_rule_everywhere_witness :
  NetworkController_new ex_home "Controller" ex_props = Ok ex_ctl ∧
  addHub ex_east "hub1" no_hub_options (run [] ex_ctl) = (Ok ex_hub1, ex_ctl1) ∧
  addSpoke ex_east "spoke1" no_network_options
    (run [OpAddHub ex_east "hub1" no_hub_options] ex_ctl) = (Ok ex_spoke1, ex_ctl2) ∧
  flowLogFormat ex_ctl = LogV5 ∧
  hp_flowLogs (hub_props ex_hub1) =
    [("flow-log-default",
      {| destination := toS3 (flowLogBucket ex_ctl);
         logFormatDefinition := flowLogFormat ex_ctl |})] ∧
  sp_flowLogs (spoke_props ex_spoke1) =
    [("flow-log-default",
      {| destination := toS3 (flowLogBucket ex_ctl);
         logFormatDefinition := flowLogFormat ex_ctl |})].
Proof.
  assert (NetworkController_new ex_home "Controller" ex_props = Ok ex_ctl)
    as H by reflexivity.
  assert (addHub ex_east "hub1" no_hub_options (run [] ex_ctl)
            = (Ok ex_hub1, ex_ctl1)) as H1 by (vm_compute; reflexivity).
  assert (addSpoke ex_east "spoke1" no_network_options
            (run [OpAddHub ex_east "hub1" no_hub_options] ex_ctl)
            = (Ok ex_spoke1, ex_ctl2)) as H2 by (vm_compute; reflexivity).
  pose proof (default_rule_everywhere ex_home "Controller" ex_props ex_ctl H)
    as [Hformat Hrule].
  exact (conj H (conj H1 (conj H2 (conj Hformat
          (conj (proj1 (Hrule [] ex_east "hub1")
                   no_hub_options ex_hub1 ex_ctl1 H1)
                (proj2 (Hrule [OpAddHub ex_east "hub1" no_hub_options]
                          ex_east "spoke1")
                   no_network_options ex_spoke1 ex_ctl2 H2)))))).
Defined.

(** C9 at [spoke1], added after [hub1]. *)
Lemma spoke_region_is_hub_region_witness :
  NetworkController_new ex_home "Controller" ex_props
    = Ok ex_ctl ∧
  addSpoke ex_east "spoke1" no_network_options
    (run [OpAddHub ex_east "hub1" no_hub_options] ex_ctl)
    = (Ok ex_spoke1, ex_ctl2) ∧
  ∃ hub,
    _hubs (run [OpAddHub ex_east "hub1" no_hub_options] ex_ctl)
      !! "us-east-1" = Some hub ∧
    spoke_hub ex_spoke1 = hub_ref hub ∧
    spoke_region ex_spoke1 = hub_region hub ∧
    ∃ hub', _hubs ex_ctl2 !! "us-east-1" = Some hub' ∧
            hub_ref hub' = hub_ref hub ∧
            hub_spokes hub' = (hub_spokes hub ++ [ex_spoke1])%list ∧
            hub_region hub' = spoke_region ex_spoke1.
Proof.
  assert (NetworkController_new ex_home
            "Controller" ex_props = Ok ex_ctl) as H1 by reflexivity.
  assert (addSpoke ex_east "spoke1" no_network_options
            (run [OpAddHub ex_east "hub1" no_hub_options] ex_ctl)
            = (Ok ex_spoke1, ex_ctl2)) as H2 by (vm_compute; reflexivity).
  split; [exact H1 |]. split; [exact H2 |].
  exact (spoke_region_is_hub_region ex_home
           "Controller" ex_props ex_ctl [OpAddHub ex_east "hub1" no_hub_options]
           ex_east "spoke1" no_network_options ex_spoke1 ex_ctl2 H1 H2).
Defined.

(** ** The further properties at the concrete topology *)

Example ex_addHub3 :
  addHub ex_east "spoke1-c8bb" no_hub_options ex_ctl = (Ok ex_hub3, ex_ctl3).
Proof. vm_compute. reflexivity. Qed.

(** X1 at the region of [ex_east] on the fresh controller. *)
Lemma registerRegion_idempotent_witness :
  isUnresolved "us-east-1" = false ∧
  "us-east-1" ≠ this_region ex_ctl ∧
  ∃ c1, registerRegion "us-east-1" ex_ctl = (Ok tt, c1) ∧
        registerRegion "us-east-1" c1 = (Ok tt, c1) ∧
        count_occ string_dec (registeredRegions c1) "us-east-1" = 1%nat.
Proof.
  assert (isUnresolved "us-east-1" = false) as H1 by (vm_compute; reflexivity).
  assert ("us-east-1" ≠ this_region ex_ctl) as H2 by (vm_compute; discriminate).
  split; [exact H1 |]. split; [exact H2 |].
  exact (registerRegion_idempotent ex_ctl "us-east-1" H1 H2).
Defined.

(** X2 at the region token, once [hub1] was added. *)
Lemma registerRegion_symbolic_witness :
  isUnresolved "${Token[AWS.Region.8]}" = true ∧
  "${Token[AWS.Region.8]}" ≠ this_region ex_ctl1 ∧
  ("${Token[AWS.Region.8]}" ∉ registeredRegions ex_ctl1) ∧
  registerRegion "${Token[AWS.Region.8]}" ex_ctl1 =
    (Throw (SymbolicIdentifierError RegionId), ex_ctl1).
Proof.
  assert (isUnresolved "${Token[AWS.Region.8]}" = true) as H1
    by (vm_compute; reflexivity).
  assert ("${Token[AWS.Region.8]}" ≠ this_region ex_ctl1) as H2
    by (vm_compute; discriminate).
  assert ("${Token[AWS.Region.8]}" ∉ registeredRegions ex_ctl1) as H3
    by (refine (bool_decide_eq_false_1 _ _); vm_compute; reflexivity).
  split; [exact H1 |]. split; [exact H2 |]. split; [exact H3 |].
  exact (registerRegion_symbolic ex_ctl1 "${Token[AWS.Region.8]}" H1 H2 H3).
Defined.

(** X3 for the controller of [ex_home]. *)
Lemma register_throws_on_tokens_only_witness :
  NetworkController_new ex_home "Controller" ex_props = Ok ex_ctl ∧
  ∀ (ops : list Op) (x : string),
    let c := run ops ex_ctl in
    match registerAccount x c with
    | (Ok _, c') =>
        isUnresolved x = false ∧
        (x = this_account c ∨ x ∈ registeredAccounts c')
    | (Throw e, c') =>
        e = SymbolicIdentifierError AccountId ∧ isUnresolved x = true ∧ c' = c
    end ∧
    match registerRegion x c with
    | (Ok _, c') =>
        isUnresolved x = false ∧
        (x = this_region c ∨ x ∈ registeredRegions c')
    | (Throw e, c') =>
        e = SymbolicIdentifierError RegionId ∧ isUnresolved x = true ∧ c' = c
    end.
Proof.
  assert (NetworkController_new ex_home "Controller" ex_props = Ok ex_ctl)
    as H by reflexivity.
  split; [exact H |].
  exact (register_throws_on_tokens_only ex_home "Controller" ex_props ex_ctl H).
Defined.

(** X4 at [hub1] and at a second hub for its region. *)
Lemma addHub_outcome_witness :
  addHub ex_east "hub1" no_hub_options ex_ctl = (Ok ex_hub1, ex_ctl1) ∧
  addHub ex_east "hub2" no_hub_options ex_ctl1 =
    (Throw (DuplicateHubError "us-east-1"), ex_ctl1) ∧
  (isUnresolved (scope_account ex_east) = false ∧
   isUnresolved (scope_region ex_east) = false ∧
   _hubs ex_ctl !! scope_region ex_east = None ∧
   inherited (scope_region ex_east) = false) ∧
  ("us-east-1" = scope_region ex_east ∧ ex_ctl1 = ex_ctl1 ∧
   isUnresolved (scope_account ex_east) = false ∧
   isUnresolved (scope_region ex_east) = false ∧
   (is_Some (_hubs ex_ctl1 !! scope_region ex_east) ∨
    inherited (scope_region ex_east) = true)).
Proof.
  assert (addHub ex_east "hub1" no_hub_options ex_ctl = (Ok ex_hub1, ex_ctl1))
    as H1 by (vm_compute; reflexivity).
  assert (addHub ex_east "hub2" no_hub_options ex_ctl1 =
            (Throw (DuplicateHubError "us-east-1"), ex_ctl1))
    as H2 by (vm_compute; reflexivity).
  exact (conj H1 (conj H2
          (conj (addHub_outcome ex_ctl ex_east "hub1" no_hub_options
                   (Ok ex_hub1) ex_ctl1 H1)
                (proj2 (addHub_outcome ex_ctl1 ex_east "hub2" no_hub_options
                          (Throw (DuplicateHubError "us-east-1")) ex_ctl1 H2)
                   "us-east-1" eq_refl)))).
Defined.

(** X5 at [hub1]. *)
Lemma addHub_registry_witness :
  addHub ex_east "hub1" no_hub_options ex_ctl = (Ok ex_hub1, ex_ctl1) ∧
  hub_scope ex_hub1 = ex_east ∧ hub_id ex_hub1 = "hub1" ∧ hub_spokes ex_hub1 = [] ∧
  hp_availabilityZones (hub_props ex_hub1) = None ∧
  hp_maxAzs (hub_props ex_hub1) = None ∧
  hp_defaultTransitGatewayRouteTable (hub_props ex_hub1) = None ∧
  (∀ R, _hubs ex_ctl1 !! R =
        if decide (R = "us-east-1") then Some ex_hub1 else _hubs ex_ctl !! R) ∧
  same_config ex_ctl ex_ctl1.
Proof.
  assert (addHub ex_east "hub1" no_hub_options ex_ctl = (Ok ex_hub1, ex_ctl1))
    as H by (vm_compute; reflexivity).
  split; [exact H |].
  exact (addHub_registry ex_ctl ex_east "hub1" no_hub_options ex_hub1 ex_ctl1 H).
Defined.

(** X6 at [hub1]. *)
Lemma environment_is_tracked_witness :
  addHub ex_east "hub1" no_hub_options ex_ctl = (Ok ex_hub1, ex_ctl1) ∧
  (∀ a, a ∈ registeredAccounts ex_ctl1 ↔
        a ∈ registeredAccounts ex_ctl ∨
        (a = "111111111111" ∧ "111111111111" ≠ this_account ex_ctl)) ∧
  (∀ r, r ∈ registeredRegions ex_ctl1 ↔
        r ∈ registeredRegions ex_ctl ∨
        (r = "us-east-1" ∧ "us-east-1" ≠ this_region ex_ctl)).
Proof.
  assert (addHub ex_east "hub1" no_hub_options ex_ctl = (Ok ex_hub1, ex_ctl1))
    as H by (vm_compute; reflexivity).
  split; [exact H |].
  exact (environment_is_tracked ex_ctl ex_ctl1 ex_east "hub1"
           (or_introl (ex_intro _ no_hub_options (ex_intro _ ex_hub1 H)))).
Defined.

(** X7 at [spoke1]. *)
Lemma addSpoke_returns_only_if_witness :
  addSpoke ex_east "spoke1" no_network_options ex_ctl1 = (Ok ex_spoke1, ex_ctl2) ∧
  isUnresolved (scope_account ex_east) = false ∧
  isUnresolved (scope_region ex_east) = false ∧
  ∃ hub, _hubs ex_ctl1 !! "us-east-1" = Some hub ∧
         js_get "us-east-1" (_hubs ex_ctl1) = JsOwn hub.
Proof.
  assert (addSpoke ex_east "spoke1" no_network_options ex_ctl1
            = (Ok ex_spoke1, ex_ctl2)) as H by (vm_compute; reflexivity).
  split; [exact H |].
  exact (addSpoke_returns_only_if ex_ctl1 ex_east "spoke1" no_network_options
           ex_spoke1 ex_ctl2 H).
Defined.

(** X8 at a spoke for [eu-west-1], where no hub is, and at a spoke for a
    scope whose account is left open. *)
Lemma addSpoke_own_errors_witness :
  addSpoke ex_eu "spoke2" no_network_options ex_ctl2
    = (Throw (MissingHubError "eu-west-1"), ex_ctl2) ∧
  addSpoke ex_east_open "spoke3" no_network_options ex_ctl2
    = (Throw (UnboundEnvironmentError AtSpoke), ex_ctl2) ∧
  ("eu-west-1" = scope_region ex_eu ∧ ex_ctl2 = ex_ctl2 ∧
   isUnresolved (scope_account ex_eu) = false ∧
   isUnresolved (scope_region ex_eu) = false ∧
   _hubs ex_ctl2 !! scope_region ex_eu = None ∧
   inherited (scope_region ex_eu) = false) ∧
  (ex_ctl2 = ex_ctl2 ∧
   (isUnresolved (scope_account ex_east_open) = true ∨
    isUnresolved (scope_region ex_east_open) = true)).
Proof.
  assert (addSpoke ex_eu "spoke2" no_network_options ex_ctl2
            = (Throw (MissingHubError "eu-west-1"), ex_ctl2))
    as H1 by (vm_compute; reflexivity).
  assert (addSpoke ex_east_open "spoke3" no_network_options ex_ctl2
            = (Throw (UnboundEnvironmentError AtSpoke), ex_ctl2))
    as H2 by (vm_compute; reflexivity).
  exact (conj H1 (conj H2
          (conj (proj2 (addSpoke_own_errors ex_ctl2 ex_eu "spoke2"
                          no_network_options _ _ H1) "eu-west-1" eq_refl)
                (proj1 (addSpoke_own_errors ex_ctl2 ex_east_open "spoke3"
                          no_network_options _ _ H2) eq_refl)))).
Defined.

(** X9 at [spoke1]. *)
Lemma addSpoke_netmask_witness :
  addSpoke ex_east "spoke1" no_network_options ex_ctl1 = (Ok ex_spoke1, ex_ctl2) ∧
  ledger (addressManager ex_ctl2) =
    (ledger (addressManager ex_ctl1) ++
       [Allocation {| req_scope := ex_east; req_id := "spoke1-c8bb";
                      req_netmask := 16 |}])%list ∧
  sp_cidr (spoke_props ex_spoke1) =
    {| req_scope := ex_east; req_id := "spoke1-c8bb"; req_netmask := 16 |}.
Proof.
  assert (addSpoke ex_east "spoke1" no_network_options ex_ctl1
            = (Ok ex_spoke1, ex_ctl2)) as H by (vm_compute; reflexivity).
  split; [exact H |].
  exact (addSpoke_netmask ex_ctl1 ex_east "spoke1" no_network_options
           ex_spoke1 ex_ctl2 H).
Defined.

(** X10 at [spoke1]. *)
Lemma addSpoke_registry_witness :
  addSpoke ex_east "spoke1" no_network_options ex_ctl1 = (Ok ex_spoke1, ex_ctl2) ∧
  spoke_scope ex_spoke1 = ex_east ∧ spoke_id ex_spoke1 = "spoke1" ∧
  sp_availabilityZones (spoke_props ex_spoke1) = None ∧
  sp_maxAzs (spoke_props ex_spoke1) = None ∧
  (∃ hub hub',
     _hubs ex_ctl1 !! "us-east-1" = Some hub ∧
     _hubs ex_ctl2 !! "us-east-1" = Some hub' ∧
     hub_scope hub' = hub_scope hub ∧ hub_id hub' = hub_id hub ∧
     hub_props hub' = hub_props hub ∧
     hub_spokes hub' = (hub_spokes hub ++ [ex_spoke1])%list) ∧
  (∀ R, R ≠ "us-east-1" → _hubs ex_ctl2 !! R = _hubs ex_ctl1 !! R) ∧
  same_config ex_ctl1 ex_ctl2.
Proof.
  assert (addSpoke ex_east "spoke1" no_network_options ex_ctl1
            = (Ok ex_spoke1, ex_ctl2)) as H by (vm_compute; reflexivity).
  split; [exact H |].
  exact (addSpoke_registry ex_ctl1 ex_east "spoke1" no_network_options
           ex_spoke1 ex_ctl2 H).
Defined.

(** X11 at [hub1] and at [spoke1], added after a manual registration. *)
Lemma addSpoke_after_addHub_witness :
  addHub ex_east "hub1" no_hub_options ex_ctl = (Ok ex_hub1, ex_ctl1) ∧
  scope_region ex_east = scope_region ex_east ∧
  isUnresolved (scope_account ex_east) = false ∧
  fst (addSpoke ex_east "spoke1" no_network_options
         (run [OpRegisterCidr ex_eu "manual" "10.0.0.0/8"] ex_ctl1)) = Ok ex_spoke1 ∧
  fst (addSpoke ex_east "spoke1" no_network_options
         (run [OpRegisterCidr ex_eu "manual" "10.0.0.0/8"] ex_ctl1))
    ≠ Throw (UnboundEnvironmentError AtSpoke) ∧
  fst (addSpoke ex_east "spoke1" no_network_options
         (run [OpRegisterCidr ex_eu "manual" "10.0.0.0/8"] ex_ctl1))
    ≠ Throw (MissingHubError "us-east-1") ∧
  spoke_scope ex_spoke1 = ex_east ∧
  spoke_hub ex_spoke1 = hub_ref ex_hub1.
Proof.
  assert (addHub ex_east "hub1" no_hub_options ex_ctl = (Ok ex_hub1, ex_ctl1))
    as H1 by (vm_compute; reflexivity).
  assert (scope_region ex_east = scope_region ex_east) as H2 by reflexivity.
  assert (isUnresolved (scope_account ex_east) = false) as H3
    by (vm_compute; reflexivity).
  assert (fst (addSpoke ex_east "spoke1" no_network_options
                 (run [OpRegisterCidr ex_eu "manual" "10.0.0.0/8"] ex_ctl1))
            = Ok ex_spoke1) as H4 by (vm_compute; reflexivity).
  pose proof (addSpoke_after_addHub ex_ctl ex_east "hub1" no_hub_options
                ex_hub1 ex_ctl1 [OpRegisterCidr ex_eu "manual" "10.0.0.0/8"]
                ex_east "spoke1" no_network_options H1 H2 H3)
    as (Hunbound & Hmissing & Hspoke).
  exact (conj H1 (conj H2 (conj H3 (conj H4 (conj Hunbound (conj Hmissing
          (Hspoke ex_spoke1 H4))))))).
Defined.

(** X14 at [hub1], once [spoke1] is attached. *)
Lemma registered_hubs_sound_witness :
  NetworkController_new ex_home "Controller" ex_props = Ok ex_ctl ∧
  _hubs (run [OpAddHub ex_east "hub1" no_hub_options;
              OpAddSpoke ex_east "spoke1" no_network_options] ex_ctl)
    !! "us-east-1" = Some ex_hub1_spoke1 ∧
  scope_region (hub_scope ex_hub1_spoke1) = "us-east-1" ∧
  isUnresolved (scope_account (hub_scope ex_hub1_spoke1)) = false ∧
  isUnresolved "us-east-1" = false ∧
  inherited "us-east-1" = false ∧
  hp_flowLogs (hub_props ex_hub1_spoke1) = default_flowLogs ex_ctl ∧
  (scope_account (hub_scope ex_hub1_spoke1) = scope_account ex_home ∨
   scope_account (hub_scope ex_hub1_spoke1) ∈
     registeredAccounts
       (run [OpAddHub ex_east "hub1" no_hub_options;
             OpAddSpoke ex_east "spoke1" no_network_options] ex_ctl)) ∧
  ("us-east-1" = scope_region ex_home ∨
   "us-east-1" ∈
     registeredRegions
       (run [OpAddHub ex_east "hub1" no_hub_options;
             OpAddSpoke ex_east "spoke1" no_network_options] ex_ctl)).
Proof.
  assert (NetworkController_new ex_home "Controller" ex_props = Ok ex_ctl)
    as H1 by reflexivity.
  assert (_hubs (run [OpAddHub ex_east "hub1" no_hub_options;
                      OpAddSpoke ex_east "spoke1" no_network_options] ex_ctl)
            !! "us-east-1" = Some ex_hub1_spoke1) as H2
    by (vm_compute; reflexivity).
  split; [exact H1 |]. split; [exact H2 |].
  exact (registered_hubs_sound ex_home "Controller" ex_props ex_ctl H1
           [OpAddHub ex_east "hub1" no_hub_options;
            OpAddSpoke ex_east "spoke1" no_network_options]
           "us-east-1" ex_hub1_spoke1 H2).
Defined.

(** X15 at [spoke1]. *)
Lemma attached_spokes_sound_witness :
  NetworkController_new ex_home "Controller" ex_props = Ok ex_ctl ∧
  _hubs (run [OpAddHub ex_east "hub1" no_hub_options;
              OpAddSpoke ex_east "spoke1" no_network_options] ex_ctl)
    !! "us-east-1" = Some ex_hub1_spoke1 ∧
  ex_spoke1 ∈ hub_spokes ex_hub1_spoke1 ∧
  scope_region (spoke_scope ex_spoke1) = "us-east-1" ∧
  isUnresolved (scope_account (spoke_scope ex_spoke1)) = false ∧
  spoke_hub ex_spoke1 = hub_ref ex_hub1_spoke1 ∧
  sp_flowLogs (spoke_props ex_spoke1) = default_flowLogs ex_ctl ∧
  (scope_account (spoke_scope ex_spoke1) = scope_account ex_home ∨
   scope_account (spoke_scope ex_spoke1) ∈
     registeredAccounts
       (run [OpAddHub ex_east "hub1" no_hub_options;
             OpAddSpoke ex_east "spoke1" no_network_options] ex_ctl)).
Proof.
  assert (NetworkController_new ex_home "Controller" ex_props = Ok ex_ctl)
    as H1 by reflexivity.
  assert (_hubs (run [OpAddHub ex_east "hub1" no_hub_options;
                      OpAddSpoke ex_east "spoke1" no_network_options] ex_ctl)
            !! "us-east-1" = Some ex_hub1_spoke1) as H2
    by (vm_compute; reflexivity).
  assert (ex_spoke1 ∈ hub_spokes ex_hub1_spoke1) as H3
    by (simpl; apply list_elem_of_singleton; reflexivity).
  split; [exact H1 |]. split; [exact H2 |]. split; [exact H3 |].
  exact (attached_spokes_sound ex_home "Controller" ex_props ex_ctl H1
           [OpAddHub ex_east "hub1" no_hub_options;
            OpAddSpoke ex_east "spoke1" no_network_options]
           "us-east-1" ex_hub1_spoke1 ex_spoke1 H2 H3).
Defined.

(** X16 at [spoke1]. *)
Lemma spoke_keys_differ_witness :
  addSpoke ex_east "spoke1" no_network_options ex_ctl1 = (Ok ex_spoke1, ex_ctl2) ∧
  req_id (sp_cidr (spoke_props ex_spoke1)) ≠ "spoke1" ∧
  (∀ (c1 : NetworkController) (options1 : AddHubOptions) hub c1',
     addHub ex_east "spoke1" options1 c1 = (Ok hub, c1') →
     hp_cidr (hub_props hub) ≠ sp_cidr (spoke_props ex_spoke1)) ∧
  (∀ (c2 : NetworkController) (id2 : string) (options2 : AddNetworkOptions)
     spoke2 c2',
     addSpoke ex_east id2 options2 c2 = (Ok spoke2, c2') →
     req_id (sp_cidr (spoke_props spoke2)) = req_id (sp_cidr (spoke_props ex_spoke1)) →
     id2 = "spoke1").
Proof.
  assert (addSpoke ex_east "spoke1" no_network_options ex_ctl1
            = (Ok ex_spoke1, ex_ctl2)) as H by (vm_compute; reflexivity).
  split; [exact H |].
  exact (spoke_keys_differ ex_ctl1 ex_east "spoke1" no_network_options
           ex_spoke1 ex_ctl2 H).
Defined.

(** X17 at a hub named [spoke1-c8bb] and at [spoke1]. *)
Lemma hub_key_can_equal_spoke_key_witness :
  addHub ex_east ("spoke1" +:+ "-" +:+ scope_addr ex_east) no_hub_options ex_ctl
    = (Ok ex_hub3, ex_ctl3) ∧
  addSpoke ex_east "spoke1" no_network_options ex_ctl1 = (Ok ex_spoke1, ex_ctl2) ∧
  netmask no_hub_options ?? defaultNetmask ex_ctl =
    netmask no_network_options ?? defaultNetmask ex_ctl1 ∧
  hp_cidr (hub_props ex_hub3) = sp_cidr (spoke_props ex_spoke1).
Proof.
  assert (addHub ex_east ("spoke1" +:+ "-" +:+ scope_addr ex_east) no_hub_options ex_ctl
            = (Ok ex_hub3, ex_ctl3)) as H1 by (vm_compute; reflexivity).
  assert (addSpoke ex_east "spoke1" no_network_options ex_ctl1
            = (Ok ex_spoke1, ex_ctl2)) as H2 by (vm_compute; reflexivity).
  assert (netmask no_hub_options ?? defaultNetmask ex_ctl =
          netmask no_network_options ?? defaultNetmask ex_ctl1) as H3
    by (vm_compute; reflexivity).
  split; [exact H1 |]. split; [exact H2 |]. split; [exact H3 |].
  exact (hub_key_can_equal_spoke_key ex_east "spoke1" ex_ctl no_hub_options
           ex_hub3 ex_ctl3 ex_ctl1 no_network_options ex_spoke1 ex_ctl2 H1 H2 H3).
Defined.

(** X18 for the controller of [ex_home]. *)
Lemma constructor_result_witness :
  NetworkController_new ex_home "Controller" ex_props = Ok ex_ctl ∧
  defaultNetmask ex_ctl = 16 ∧
  flowLogFormat ex_ctl = LogV5 ∧
  _hubs ex_ctl = ∅ ∧
  registeredAccounts ex_ctl = [] ∧
  registeredRegions ex_ctl = [] ∧
  ledger (addressManager ex_ctl) = [] ∧
  ∃ bucketName,
    flowLogBucket ex_ctl = FlowLogsBucket "flow-log-bucket" bucketName LogV5 ∧
    bucketName = toLowerCase (ex_uniqueId ex_home "Controller") ∧
    string_forall (fun a => negb (is_upper a)) bucketName = true.
Proof.
  assert (NetworkController_new ex_home "Controller" ex_props = Ok ex_ctl)
    as H by reflexivity.
  split; [exact H |].
  exact (constructor_result ex_home "Controller" ex_props ex_ctl H).
Defined.

End Claims.
